(** * Ingestion, decoding and persistence of SMS messages (ModemZTE)

    Shallow embedding of [src/src/utils/db.py] (persistence),
    [src/src/sms/modem.py] (AT command session, modem initialisation,
    decoding, ingestion) and [src/src/sms/sms_manager.py].

    Python [str] values are modelled as lists of Unicode code points
    ([pystr]); effects on the SQLite file and on the serial port are
    modelled by explicit state passing. *)

From Stdlib Require Import ZArith List Bool String Ascii Lia.
Import ListNotations.
Open Scope Z_scope.

(** ** Python strings *)
Module PyStr.

Definition pystr := list Z.

(** ASCII literal to code points. *)
Definition str_of (s : string) : pystr :=
  map (fun a => Z.of_nat (nat_of_ascii a)) (list_ascii_of_string s).

Definition eqb (a b : pystr) : bool := if list_eq_dec Z.eq_dec a b then true else false.

(** [str.isspace] of one code point (the Unicode White_Space set used by
    CPython's [str.strip] and [int]). *)
Definition is_space (c : Z) : bool :=
  ((9 <=? c) && (c <=? 13)) || ((28 <=? c) && (c <=? 32)) ||
  (c =? 133) || (c =? 160) || (c =? 5760) ||
  ((8192 <=? c) && (c <=? 8202)) || (c =? 8232) || (c =? 8233) ||
  (c =? 8239) || (c =? 8287) || (c =? 12288).

Fixpoint lstrip (s : pystr) : pystr :=
  match s with
  | c :: r => if is_space c then lstrip r else s
  | [] => []
  end.

(** [str.strip()] *)
Definition strip (s : pystr) : pystr := rev (lstrip (rev (lstrip s))).

Fixpoint is_prefix (p s : pystr) : bool :=
  match p, s with
  | [], _ => true
  | a :: p', b :: s' => (a =? b) && is_prefix p' s'
  | _ :: _, [] => false
  end.

(** [needle in hay] *)
Fixpoint contains (needle hay : pystr) : bool :=
  is_prefix needle hay ||
  match hay with
  | [] => false
  | _ :: h => contains needle h
  end.

(** [str.split(sep)] with a one-character separator. *)
Fixpoint split_on (sep : Z) (s : pystr) : list pystr :=
  match s with
  | [] => [[]]
  | c :: r =>
      let parts := split_on sep r in
      if c =? sep then [] :: parts
      else match parts with
           | p :: ps => (c :: p) :: ps
           | [] => [[c]]
           end
  end.

(** [c in '0123456789ABCDEFabcdef'] *)
Definition is_hex_char (c : Z) : bool :=
  ((48 <=? c) && (c <=? 57)) || ((65 <=? c) && (c <=? 70)) ||
  ((97 <=? c) && (c <=? 102)).

Definition all_hex (s : pystr) : bool := forallb is_hex_char s.

(** Value of an ASCII digit or letter in [base] (as read by [int]). *)
Definition digit_val (base c : Z) : option Z :=
  let v := if (48 <=? c) && (c <=? 57) then c - 48
           else if (65 <=? c) && (c <=? 90) then c - 55
           else if (97 <=? c) && (c <=? 122) then c - 87
           else 99 in
  if v <? base then Some v else None.

(** Digits with single underscores between them; [need_digit] is set at
    the start and after an underscore. *)
Fixpoint digits_us (base : Z) (s : pystr) (acc : Z) (need_digit : bool)
  : option Z :=
  match s with
  | [] => if need_digit then None else Some acc
  | c :: r =>
      if c =? 95 then (if need_digit then None else digits_us base r acc true)
      else match digit_val base c with
           | Some d => digits_us base r (acc * base + d) false
           | None => None
           end
  end.

(** [int(s, base)] for base 10 and 16 ([None] is [ValueError]):
    surrounding whitespace, a sign, the [0x] prefix in base 16 and
    underscores between digits, as CPython accepts them; non-ASCII
    decimal digits are not modelled. *)
Definition py_int (base : Z) (s : pystr) : option Z :=
  let t := strip s in
  let '(sgn, body) :=
    match t with
    | 43 :: r => (1, r)
    | 45 :: r => (-1, r)
    | _ => (1, t)
    end in
  let digits :=
    match body with
    | 48 :: x :: r =>
        if (base =? 16) && ((x =? 120) || (x =? 88)) then
          match r with 95 :: r' => r' | _ => r end
        else body
    | _ => body
    end in
  match digits_us base digits 0 true with
  | Some v => Some (sgn * v)
  | None => None
  end.

(** Decimal digits of a non-negative integer. *)
Fixpoint dec_fuel (fuel : nat) (n : Z) : pystr :=
  match fuel with
  | O => []
  | S f => (if n <? 10 then [] else dec_fuel f (n / 10)) ++ [48 + n mod 10]
  end.

Definition dec_digits (n : Z) : pystr := dec_fuel (S (Z.to_nat (Z.log2 n))) n.

Definition zpad (width : Z) (ds : pystr) : pystr :=
  repeat 48 (Z.to_nat (width - Z.of_nat (List.length ds))) ++ ds.

(** [f"{z:0{width}d}"] *)
Definition fmt_int (width z : Z) : pystr :=
  if z <? 0 then 45 :: zpad (width - 1) (dec_digits (- z))
  else zpad width (dec_digits z).

(** [f"{z}"] *)
Definition show_int (z : Z) : pystr := fmt_int 0 z.

End PyStr.
Import PyStr.

(** ** Persistence: [src/src/utils/db.py] *)
Module Db.

(** Value of the [received_date] column: a formatted text, the text of
    [datetime.now()] (not modelled further), or SQL [NULL] (Python
    [None]). *)
Inductive date_val :=
| DateNow
| DateText (s : pystr)
| DateNull.

(** [parse_modem_date(date_str)]; every exception of the [try] block
    ([ValueError] of the unpacking or of [int]) lands in the handler,
    which returns [datetime.now()]; a non-empty string without a comma
    falls off the end of the function and returns [None]. *)
Definition parse_modem_date (date_str : pystr) : date_val :=
  match date_str with
  | [] => DateNow
  | _ =>
    if contains [44] date_str then
      match split_on 44 date_str with
      | [date_part; time_part0] =>
          let time_part := hd [] (split_on 45 (hd [] (split_on 43 time_part0))) in
          match split_on 47 date_part, split_on 58 time_part with
          | [ys; ms; ds], [hs; mis; ss] =>
              match py_int 10 ys, py_int 10 ms, py_int 10 ds with
              | Some y, Some mo, Some d =>
                  match py_int 10 hs, py_int 10 mis, py_int 10 ss with
                  | Some h, Some mi, Some se =>
                      let year := 2000 + y in
                      DateText (fmt_int 4 year ++ [45] ++ fmt_int 2 mo ++ [45] ++
                                fmt_int 2 d ++ [32] ++ fmt_int 2 h ++ [58] ++
                                fmt_int 2 mi ++ [58] ++ fmt_int 2 se)
                  | _, _, _ => DateNow
                  end
              | _, _, _ => DateNow
              end
          | _, _ => DateNow
          end
      | _ => DateNow
      end
    else DateNull
  end.

(** A row of table [sms] (see [init_db]); no uniqueness constraint. *)
Record sms_row := {
  row_id : Z;
  row_sender : pystr;
  row_received_date : date_val;
  row_content : pystr;
  row_is_sent_to_telegram : Z;
  row_deleted_from_sim : Z
}.

(** The database file: its rows in insertion order, the next
    AUTOINCREMENT id, and whether [sqlite3.connect] succeeds. *)
Record db := {
  rows : list sms_row;
  next_id : Z;
  db_ok : bool
}.

(** Body of [save_sms(status, sender, timestamp, content)]: an
    unconditional INSERT; the [except] returns [None]. *)
Definition save_sms (status sender timestamp content : pystr) (d : db)
  : option Z * db :=
  if db_ok d then
    let parsed_date := parse_modem_date timestamp in
    let r := {| row_id := next_id d; row_sender := sender;
                row_received_date := parsed_date; row_content := content;
                row_is_sent_to_telegram := 1; row_deleted_from_sim := 0 |} in
    (Some (next_id d), {| rows := rows d ++ [r]; next_id := next_id d + 1;
                          db_ok := db_ok d |})
  else (None, d).

Definition row_matches (sender content : pystr) (r : sms_row) : bool :=
  PyStr.eqb (row_sender r) sender && PyStr.eqb (row_content r) content.

(** [message_exists(sender, content)]: [None] stands for the
    [UnboundLocalError] raised by [conn.close()] in the [finally] clause
    when [sqlite3.connect] failed. *)
Definition message_exists (sender content : pystr) (d : db) : option bool :=
  if db_ok d then Some (existsb (row_matches sender content) (rows d)) else None.

Definition count_pair (sender content : pystr) (d : db) : nat :=
  List.length (filter (row_matches sender content) (rows d)).

(** [verify_message_saved(sender, content)]: the query of
    [message_exists], but with [sqlite3.connect] inside the [try] and no
    [finally] clause, so a failing connection gives [False]. *)
Definition verify_message_saved (sender content : pystr) (d : db) : bool :=
  if db_ok d then existsb (row_matches sender content) (rows d) else false.

Definition mark_deleted_row (msg_id : Z) (r : sms_row) : sms_row :=
  if row_id r =? msg_id then
    {| row_id := row_id r; row_sender := row_sender r;
       row_received_date := row_received_date r; row_content := row_content r;
       row_is_sent_to_telegram := row_is_sent_to_telegram r;
       row_deleted_from_sim := 1 |}
  else r.

(** [mark_message_deleted(msg_id)]: [sqlite3.connect] is outside the
    [try], so a failing connection raises ([None]); the UPDATE sets
    [deleted_from_sim = 1] on the rows whose id is [msg_id], and the
    function returns [True] however many rows that is. *)
Definition mark_message_deleted (msg_id : Z) (d : db) : option bool * db :=
  if db_ok d then
    (Some true, {| rows := map (mark_deleted_row msg_id) (rows d);
                   next_id := next_id d; db_ok := db_ok d |})
  else (None, d).

End Db.

(** ** Message processing: [process_message] (modem.py) and
    [process_and_delete_message] (sms_manager.py) *)
Module Pipeline.
Import Db.

Inductive pyexc := TypeError | UnboundLocalError.

(** Observable log: the store queries and store results, and every
    command written to the serial port. *)
Inductive event :=
| EvExists (sender content : pystr) (found : bool)
| EvStore (sender content : pystr) (result : option Z)
| EvWrite (bytes : pystr).

Record st := {
  st_db : db;
  st_trace : list event;
  (** replies of the modem to successive [AT+CMGD] commands: [true]
      when the response contains [OK] *)
  st_delete_replies : list bool
}.

Definition M (A : Type) := st -> (pyexc + A) * st.

Definition ret {A} (a : A) : M A := fun s => (inr a, s).
Definition raise {A} (e : pyexc) : M A := fun s => (inl e, s).
Definition bind {A B} (m : M A) (k : A -> M B) : M B :=
  fun s => match m s with
           | (inl e, s') => (inl e, s')
           | (inr a, s') => k a s'
           end.
Notation "x <- m ;; k" := (bind m (fun x => k))
  (at level 61, m at next level, right associativity).

(** [try: body except Exception: return default] *)
Definition try_except {A} (body : M A) (default : A) : M A :=
  fun s => match body s with
           | (inl _, s') => (inr default, s')
           | r => r
           end.

Definition log (e : event) : M unit :=
  fun s => (inr tt, {| st_db := st_db s; st_trace := st_trace s ++ [e];
                       st_delete_replies := st_delete_replies s |}).

Definition get_db : M db := fun s => (inr (st_db s), s).

(** Next modem reply to a delete command (no reply: no [OK]). *)
Definition next_delete_reply : M bool :=
  fun s => match st_delete_replies s with
           | b :: r => (inr b, {| st_db := st_db s; st_trace := st_trace s;
                                  st_delete_replies := r |})
           | [] => (inr false, s)
           end.

(** *** Python argument binding *)

Inductive pyval := VStr (s : pystr) | VBool (b : bool).

Fixpoint assoc (k : pystr) (env : list (pystr * pyval)) : option pyval :=
  match env with
  | [] => None
  | (k', v) :: r => if PyStr.eqb k k' then Some v else assoc k r
  end.

(** Binding of positional and keyword arguments to the parameter list
    of a [def] without defaults or star parameters; [None] is the
    [TypeError] of the call. *)
Definition bind_args (params : list pystr) (pos : list pyval)
  (kw : list (pystr * pyval)) : option (list (pystr * pyval)) :=
  if Nat.ltb (List.length params) (List.length pos) then None else
  let env0 := combine (firstn (List.length pos) params) pos in
  let env :=
    fold_left (fun acc kv =>
      match acc with
      | None => None
      | Some e =>
          if existsb (PyStr.eqb (fst kv)) params then
            match assoc (fst kv) e with
            | Some _ => None
            | None => Some (e ++ [kv])
            end
          else None
      end) kw (Some env0) in
  match env with
  | Some e => if forallb (fun p => match assoc p e with Some _ => true | None => false end) params
              then Some e else None
  | None => None
  end.

Definition save_sms_params : list pystr :=
  [str_of "status"; str_of "sender"; str_of "timestamp"; str_of "content"].

(** A store callee, as seen by the callers: positional and keyword
    arguments in, an optional row id or an exception out; it acts on the
    database only. *)
Definition db_store := list pyval -> list (pystr * pyval) -> db -> (pyexc + option Z) * db.

Definition store_fn := list pyval -> list (pystr * pyval) -> M (option Z).

Definition lift_db_store (f : db_store) : store_fn :=
  fun pos kw s => let '(r, d') := f pos kw (st_db s) in
                  (r, {| st_db := d'; st_trace := st_trace s;
                         st_delete_replies := st_delete_replies s |}).

(** A call of [save_sms] with positional arguments [pos] and keyword
    arguments [kw], against [def save_sms(status, sender, timestamp,
    content)] (every argument passed in this code is a [str], except the
    [force_save] flag). *)
Definition call_save_sms_db : db_store :=
  fun pos kw d =>
  match bind_args save_sms_params pos kw with
  | None => (inl TypeError, d)
  | Some env =>
      match assoc (str_of "status") env, assoc (str_of "sender") env,
            assoc (str_of "timestamp") env, assoc (str_of "content") env with
      | Some (VStr a), Some (VStr b), Some (VStr c), Some (VStr e) =>
          let '(r, d') := save_sms a b c e d in (inr r, d')
      | _, _, _, _ => (inl TypeError, d)
      end
  end.

Definition call_save_sms : store_fn := lift_db_store call_save_sms_db.

(** [if save_result:] on the returned row id *)
Definition truthy_id (r : option Z) : bool :=
  match r with Some z => negb (z =? 0) | None => false end.

Definition cmgd (index : Z) : pystr := str_of "AT+CMGD=" ++ show_int index.

Definition message_exists_m (sender content : pystr) : M bool :=
  d <- get_db ;;
  match message_exists sender content d with
  | Some b => _ <- log (EvExists sender content b) ;; ret b
  | None => raise UnboundLocalError
  end.

(** [delete_sms(ser, index)] of modem.py *)
Definition delete_sms (index : Z) : M bool :=
  try_except (_ <- log (EvWrite (cmgd index ++ [13])) ;; next_delete_reply) false.

(** [delete_sms_with_retry(ser, index, max_retries)] *)
Fixpoint delete_sms_with_retry_n (n : nat) (index : Z) : M bool :=
  match n with
  | O => ret false
  | S k => ok <- delete_sms index ;;
           if ok then ret true else delete_sms_with_retry_n k index
  end.

Definition delete_sms_with_retry (index : Z) : M bool :=
  delete_sms_with_retry_n 3 index.

(** [delete_sms(ser, index, max_retries=3)] of sms_manager.py, through
    [send_at_command] (which never raises) *)
Definition manager_delete_sms (index : Z) : M bool :=
  delete_sms_with_retry_n 3 index.

Section WithStore.
Variable save : store_fn.

Definition store (status sender date_time content : pystr) (force_save : bool)
  : M (option Z) :=
  r <- save [VStr status; VStr sender; VStr date_time; VStr content]
            [(str_of "force_save", VBool force_save)] ;;
  _ <- log (EvStore sender content r) ;;
  ret r.

(** [process_message(ser, index, status, sender, date_time, content,
    force_save)]; logging and admin notifications are omitted (they
    neither write to the serial port nor touch the [sms] table, and
    [notify_admins_new_sms] catches all of its exceptions). *)
Definition process_message_with (index : Z) (status sender date_time content : pystr)
  (force_save : bool) : M bool :=
  try_except (
    match content, sender with
    | [], _ | _, [] => ret false
    | _, _ =>
      already_exists <- message_exists_m sender content ;;
      if already_exists && negb force_save then ret true
      else
        save_result <- store status sender date_time content force_save ;;
        if truthy_id save_result then
          _ <- delete_sms_with_retry index ;;
          ret true
        else ret false
    end) false.

(** [process_and_delete_message(ser, index, status, sender, timestamp,
    content, force_save)] *)
Definition process_and_delete_message_with (index : Z)
  (status sender timestamp content : pystr) (force_save : bool) : M bool :=
  try_except (
    match content, sender with
    | [], _ | _, [] => ret false
    | _, _ =>
      already_exists <- message_exists_m sender content ;;
      if already_exists && negb force_save then
        _ <- manager_delete_sms index ;;
        ret true
      else
        save_result <- store status sender timestamp content force_save ;;
        if truthy_id save_result then
          _ <- manager_delete_sms index ;;
          ret true
        else ret false
    end) false.

End WithStore.

(** The functions as written: both call the imported [save_sms]. *)
Definition process_message := process_message_with call_save_sms.
Definition process_and_delete_message := process_and_delete_message_with call_save_sms.

(** [FORCE_PROCESS_ALL_MESSAGES], passed as [force_save] by every caller
    of [process_message] in modem.py. *)
Definition FORCE_PROCESS_ALL_MESSAGES := true.

End Pipeline.

(** ** Decoding: [decode_pdu_timestamp] and [decode_message_content]
    (modem.py) *)
Module Decode.

(** Result of [decode_pdu_timestamp]: a formatted string, or the
    [datetime.now()] fallback. *)
Inductive ts_result := TsNow | TsText (s : pystr).

(** [timestamp_hex[i]] (callers guarantee [i < len]) *)
Definition at_ (s : pystr) (i : nat) : Z := nth i s 0.

(** [int(timestamp_hex[j] + timestamp_hex[i], 16)] *)
Definition swapped_pair (s : pystr) (i : nat) : option Z :=
  py_int 16 [at_ s (S i); at_ s i].

Definition in_range (lo x hi : Z) : bool := (lo <=? x) && (x <=? hi).

(** [decode_pdu_timestamp(timestamp_hex)]; the bare [except] maps the
    [ValueError] of [int] to the fallback. *)
Definition decode_pdu_timestamp (timestamp_hex : pystr) : ts_result :=
  if Nat.ltb (List.length timestamp_hex) 14 then TsNow else
  match swapped_pair timestamp_hex 0, swapped_pair timestamp_hex 2,
        swapped_pair timestamp_hex 4, swapped_pair timestamp_hex 6,
        swapped_pair timestamp_hex 8, swapped_pair timestamp_hex 10 with
  | Some y, Some month, Some day, Some hour, Some minute, Some second =>
      let year := y + 2000 in
      if negb (in_range 1 month 12) || negb (in_range 1 day 31) ||
         negb (in_range 0 hour 23) || negb (in_range 0 minute 59) ||
         negb (in_range 0 second 59)
      then TsNow
      else TsText (fmt_int 4 year ++ [45] ++ fmt_int 2 month ++ [45] ++
                   fmt_int 2 day ++ [32] ++ fmt_int 2 hour ++ [58] ++
                   fmt_int 2 minute ++ [58] ++ fmt_int 2 second)
  | _, _, _, _, _, _ => TsNow
  end.

(** The decimal (BCD) reading of the nibble-swapped pair at [i]. *)
Definition bcd_pair (s : pystr) (i : nat) : Z :=
  10 * (at_ s (S i) - 48) + (at_ s i - 48).

(** *** UCS2 / UTF-8 content decoding *)

Fixpoint chunks4 (fuel : nat) (s : pystr) : list pystr :=
  match fuel with
  | O => []
  | S f => match s with
           | [] => []
           | _ => firstn 4 s :: chunks4 f (skipn 4 s)
           end
  end.

(** The UCS2 loop of [decode_message_content]: one [chr(int(hex_char,
    16))] per 4-character chunk, skipping code 0; [None] is the
    [ValueError] of [int]. *)
Fixpoint ucs2_loop (cs : list pystr) : option pystr :=
  match cs with
  | [] => Some []
  | c :: r =>
      match py_int 16 c, ucs2_loop r with
      | Some code, Some rest => Some (if code =? 0 then rest else code :: rest)
      | _, _ => None
      end
  end.

Definition hex_nibble (c : Z) : Z :=
  if c <=? 57 then c - 48 else if c <=? 70 then c - 55 else c - 87.

(** [bytes.fromhex(s)] for a string of hex digits: [None] when the
    length is odd. *)
Fixpoint fromhex (s : pystr) : option (list Z) :=
  match s with
  | [] => Some []
  | [_] => None
  | a :: b :: r =>
      match fromhex r with
      | Some bs => Some (16 * hex_nibble a + hex_nibble b :: bs)
      | None => None
      end
  end.

Definition cont (b : Z) : bool := (128 <=? b) && (b <=? 191).

(** One well-formed UTF-8 sequence at the head of [bs]. *)
Definition utf8_seq (bs : list Z) : option (Z * list Z) :=
  match bs with
  | [] => None
  | b0 :: r0 =>
    if b0 <? 128 then Some (b0, r0)
    else if (194 <=? b0) && (b0 <=? 223) then
      match r0 with
      | b1 :: r1 => if cont b1 then Some ((b0 - 192) * 64 + (b1 - 128), r1) else None
      | [] => None
      end
    else if (224 <=? b0) && (b0 <=? 239) then
      match r0 with
      | b1 :: b2 :: r2 =>
          let lo := if b0 =? 224 then 160 else 128 in
          let hi := if b0 =? 237 then 159 else 191 in
          if (lo <=? b1) && (b1 <=? hi) && cont b2
          then Some (((b0 - 224) * 64 + (b1 - 128)) * 64 + (b2 - 128), r2)
          else None
      | _ => None
      end
    else if (240 <=? b0) && (b0 <=? 244) then
      match r0 with
      | b1 :: b2 :: b3 :: r3 =>
          let lo := if b0 =? 240 then 144 else 128 in
          let hi := if b0 =? 244 then 143 else 191 in
          if (lo <=? b1) && (b1 <=? hi) && cont b2 && cont b3
          then Some ((((b0 - 240) * 64 + (b1 - 128)) * 64 + (b2 - 128)) * 64
                     + (b3 - 128), r3)
          else None
      | _ => None
      end
    else None
  end.

(** [bytes.decode('utf-8', errors='ignore')]: an ill-formed sequence is
    skipped; dropping its first byte and going on gives the same text,
    because the rest of a maximal ill-formed subpart consists of
    continuation bytes, each of which is ill-formed on its own. *)
Fixpoint utf8_decode_ignore (fuel : nat) (bs : list Z) : pystr :=
  match fuel with
  | O => []
  | S f =>
      match bs with
      | [] => []
      | _ :: r =>
          match utf8_seq bs with
          | Some (c, rest) => c :: utf8_decode_ignore f rest
          | None => utf8_decode_ignore f r
          end
      end
  end.

(** [decode_message_content(content)] *)
Definition decode_message_content (content : pystr) : pystr :=
  if negb (all_hex content) then content else
  let ucs2 :=
    if Nat.eqb (Nat.modulo (List.length content) 4) 0 then
      match ucs2_loop (chunks4 (List.length content) content) with
      | Some decoded =>
          let decoded := strip decoded in
          match decoded with [] => None | _ => Some decoded end
      | None => None
      end
    else None in
  match ucs2 with
  | Some d => d
  | None =>
      match fromhex content with
      | Some bs =>
          match strip (utf8_decode_ignore (List.length bs) bs) with
          | [] => content
          | decoded => decoded
          end
      | None => content
      end
  end.

(** [s.encode('utf-16be').hex()]: [None] is the [UnicodeEncodeError] of
    a lone surrogate. *)
Definition hex4 (u : Z) : pystr :=
  map (fun k => let n := Z.land (Z.shiftr u (4 * k)) 15 in
                if n <? 10 then 48 + n else 87 + n) [3; 2; 1; 0].

Definition is_surrogate (c : Z) : bool := (55296 <=? c) && (c <=? 57343).

Fixpoint utf16be_hex (s : pystr) : option pystr :=
  match s with
  | [] => Some []
  | c :: r =>
      match utf16be_hex r with
      | None => None
      | Some h =>
          if is_surrogate c then None
          else if c <? 65536 then Some (hex4 c ++ h)
          else let v := c - 65536 in
               Some (hex4 (55296 + Z.shiftr v 10) ++ hex4 (56320 + Z.land v 1023) ++ h)
      end
  end.

End Decode.

(** ** Command session: [send_at_command] (modem.py) *)
Module Session.

(** The serial port: whether it is open, the clock (ms), the chunks the
    modem sends and when they arrive (already decoded, [errors='ignore']),
    and what has been written. *)
Record serial := {
  port_open : bool;
  clock : Z;
  arrivals : list (Z * pystr);
  written : list pystr
}.

Definition arrived_by (t : Z) (a : Z * pystr) : bool := fst a <=? t.

(** [send_at_command(ser, command, wait)] with [wait] in ms:
    [reset_input_buffer], [write(command + "\r")], [sleep(wait)], then
    one [read(ser.in_waiting)] of what is buffered. On a closed port the
    first call raises and the handler returns the empty string. *)
Definition send_at_command (ser : serial) (command : pystr) (wait : Z)
  : pystr * serial :=
  if negb (port_open ser) then ([], ser) else
  let pending := filter (fun a => negb (arrived_by (clock ser) a)) (arrivals ser) in
  let t := clock ser + wait in
  let buffered := filter (arrived_by t) pending in
  let later := filter (fun a => negb (arrived_by t a)) pending in
  let response := List.concat (map snd buffered) in
  (strip response,
   {| port_open := true; clock := t; arrivals := later;
      written := written ser ++ [command ++ [13]] |}).

(** The command session as the claim describes it: accumulate the
    chunks arriving before the deadline, stopping at the first point
    where the text gathered so far contains [OK] or [ERROR]. *)
Fixpoint accumulate_until_terminator (acc : pystr) (chunks : list pystr) : pystr :=
  match chunks with
  | [] => acc
  | c :: r =>
      let acc' := acc ++ c in
      if contains (str_of "OK") acc' || contains (str_of "ERROR") acc' then acc'
      else accumulate_until_terminator acc' r
  end.

Definition send_as_specified (ser : serial) (command : pystr) (wait : Z) : pystr :=
  if negb (port_open ser) then [] else
  let pending := filter (fun a => negb (arrived_by (clock ser) a)) (arrivals ser) in
  let buffered := filter (arrived_by (clock ser + wait)) pending in
  strip (accumulate_until_terminator [] (map snd buffered)).

End Session.

(** ** Mode negotiation: [init_modem] (modem.py) *)
Module Init.

Inductive mode := TEXT | PDU.

Inductive init_error := ModemNotResponding | ModeNotSet (m : mode).

(** The modem as seen through [send_at_command]: each call returns the
    next scripted response (the empty string once the script is
    exhausted). The
    state also holds the command log and the global [SMS_MODE]. *)
Record modem := {
  replies : list pystr;
  sent : list pystr;
  SMS_MODE : mode
}.

Definition IM (A : Type) := modem -> (init_error + A) * modem.

Definition iret {A} (a : A) : IM A := fun s => (inr a, s).
Definition ifail {A} (e : init_error) : IM A := fun s => (inl e, s).
Definition ibind {A B} (m : IM A) (k : A -> IM B) : IM B :=
  fun s => match m s with
           | (inl e, s') => (inl e, s')
           | (inr a, s') => k a s'
           end.
Notation "x <-- m ;; k" := (ibind m (fun x => k))
  (at level 61, m at next level, right associativity).

Definition send (cmd : pystr) : IM pystr :=
  fun s => let '(r, rs) := match replies s with
                           | r :: rs => (r, rs)
                           | [] => ([], [])
                           end in
           (inr r, {| replies := rs; sent := sent s ++ [cmd]; SMS_MODE := SMS_MODE s |}).

Definition set_SMS_MODE (m : mode) : IM unit :=
  fun s => (inr tt, {| replies := replies s; sent := sent s; SMS_MODE := m |}).

Definition has_OK (r : pystr) : bool := contains (str_of "OK") r.

Fixpoint send_all (cmds : list pystr) : IM unit :=
  match cmds with
  | [] => iret tt
  | c :: r => _ <-- send c ;; send_all r
  end.

(** [f'"{s}"'] *)
Definition quoted (s : string) : pystr := [34] ++ str_of s ++ [34].

(** [AT+CPMS="SM","SM","SM"] *)
Definition cpms_sm : pystr :=
  str_of "AT+CPMS=" ++ quoted "SM" ++ [44] ++ quoted "SM" ++ [44] ++ quoted "SM".

Definition essential_commands (m : mode) : list pystr :=
  match m with
  | TEXT => [str_of "AT+CMGF=1"; cpms_sm;
             str_of "AT+CNMI=2,1,0,0,0"; str_of "AT+CSCS=" ++ quoted "UCS2";
             str_of "AT+CSMP=17,167,0,0"; str_of "AT+CSDH=1"; str_of "AT+CMMS=2"]
  | PDU => [str_of "AT+CMGF=0"; cpms_sm;
            str_of "AT+CNMI=2,1,0,0,0"; str_of "AT+CSDH=1"]
  end.

(** Steps 1 to 3 of [init_modem]: basic setup, mode choice, and the
    essential configuration commands (their failures are only logged). *)
Definition init_configure (preferred_mode : pystr) : IM mode :=
  _ <-- send (str_of "ATZ") ;;
  _ <-- send (str_of "ATE1") ;;
  r <-- send (str_of "AT") ;;
  if negb (has_OK r) then ifail ModemNotResponding else
  sms_mode <--
    (if PyStr.eqb preferred_mode (str_of "AUTO") then
       text_resp <-- send (str_of "AT+CMGF=1") ;;
       if has_OK text_resp then
         test_resp <-- send (str_of "AT+CMGF?") ;;
         iret (if contains (str_of "1") test_resp then TEXT else PDU)
       else iret PDU
     else if PyStr.eqb preferred_mode (str_of "TEXT") then iret TEXT
     else iret PDU) ;;
  _ <-- send_all (essential_commands sms_mode) ;;
  iret sms_mode.

Definition expected_value (m : mode) : pystr :=
  match m with TEXT => str_of "1" | PDU => str_of "0" end.

(** Steps 4 and 5 of [init_modem]: re-query the mode, raise on a
    mismatch, query the storage, record [SMS_MODE] and return [True]. *)
Definition init_verify (sms_mode : mode) : IM bool :=
  resp <-- send (str_of "AT+CMGF?") ;;
  if negb (contains (expected_value sms_mode) resp) then ifail (ModeNotSet sms_mode)
  else
    _ <-- send (str_of "AT+CPMS?") ;;
    _ <-- set_SMS_MODE sms_mode ;;
    iret true.

Definition init_modem (preferred_mode : pystr) : IM bool :=
  m <-- init_configure preferred_mode ;; init_verify m.

End Init.

(** ** Multi-part messages: [detect_concatenated_message] and its caller
    [process_cmgl_text_mode] (modem.py) *)
Module Concat.

(** [detect_concatenated_message(sender, content, timestamp)] returns
    [(is_part_of_concatenated, combined_content_if_complete,
    reference_id)]. *)
Definition detect_concatenated_message (sender content timestamp : pystr)
  : bool * pystr * option Z :=
  (false, content, None).

(** A message of a [+CMGL] listing after header parsing and UCS2
    decoding. *)
Record listed := {
  l_index : Z;
  l_sender : pystr;
  l_timestamp : pystr;
  l_content : pystr
}.

(** The per-message branch of [process_cmgl_text_mode]: the (index,
    content) pairs handed to [process_message], in listing order. *)
Fixpoint text_mode_handoffs (msgs : list listed) : list (Z * pystr) :=
  match msgs with
  | [] => []
  | m :: r =>
      match l_sender m, l_content m with
      | [], _ | _, [] => text_mode_handoffs r
      | _, _ =>
          let '(is_concatenated, final_content, _) :=
            detect_concatenated_message (l_sender m) (l_content m) (l_timestamp m) in
          if is_concatenated then
            match final_content with
            | [] => text_mode_handoffs r
            | _ => (l_index m, final_content) :: text_mode_handoffs r
            end
          else (l_index m, l_content m) :: text_mode_handoffs r
      end
  end.

(** A part of a concatenated SMS as carried by its user-data header. *)
Record part := {
  p_index : Z;
  p_sender : pystr;
  p_timestamp : pystr;
  p_ref : Z;
  p_seq : Z;
  p_total : Z;
  p_content : pystr
}.

Definition listed_of_part (p : part) : listed :=
  {| l_index := p_index p; l_sender := p_sender p;
     l_timestamp := p_timestamp p; l_content := p_content p |}.

End Concat.

(** ** Users and verifications: the [users] and [verification] tables of
    [src/src/utils/db.py] *)
Module Users.

(** A row of table [users]; SQL [NULL] is [None]. *)
Record user_row := {
  u_id : Z;
  u_username : option pystr;
  u_telegram_id : option pystr;
  u_phone_number : option pystr;
  u_is_admin : Z
}.

(** A row of table [verification]. *)
Record verification_row := {
  v_id : Z;
  v_user_id : Z;
  v_sms_id : option Z;
  v_status : pystr;
  v_verified_at : pystr
}.

(** The columns the user functions read and write: tables [users] and
    [verification] with their next AUTOINCREMENT ids, the [verified_by]
    column of table [sms] (one entry per row id), and whether
    [sqlite3.connect] succeeds. *)
Record udb := {
  users : list user_row;
  users_next : Z;
  sms_verified_by : list (Z * option Z);
  verifications : list verification_row;
  verification_next : Z;
  udb_ok : bool
}.

(** SQL [a = b] on TEXT values: [NULL] compares equal to nothing. *)
Definition sql_eq_text (a b : option pystr) : bool :=
  match a, b with Some x, Some y => PyStr.eqb x y | _, _ => false end.

Definition sql_eq_int (a b : option Z) : bool :=
  match a, b with Some x, Some y => x =? y | _, _ => false end.

(** [get_user_by_telegram_id(telegram_id)]: the outer [None] is the
    exception of [sqlite3.connect] (outside the [try]); the inner one is
    [fetchone()] on no row. The UNIQUE index on [telegram_id] keeps at
    most one matching row. *)
Definition get_user_by_telegram_id (telegram_id : option pystr) (d : udb)
  : option (option user_row) :=
  if udb_ok d then
    Some (find (fun u => sql_eq_text (u_telegram_id u) telegram_id) (users d))
  else None.

Definition set_user_row (user : user_row) (username phone_number : option pystr)
  : user_row :=
  {| u_id := u_id user; u_username := username; u_telegram_id := u_telegram_id user;
     u_phone_number := phone_number; u_is_admin := u_is_admin user |}.

(** [save_or_update_user(telegram_id, username, phone_number, is_admin)]:
    [INSERT ... ON CONFLICT(telegram_id) DO UPDATE SET username=?,
    phone_number=?]. The new rowid is drawn (and the AUTOINCREMENT
    counter advanced) before the conflict is detected; [None] is the
    exception of [sqlite3.connect]. *)
Definition save_or_update_user (telegram_id username phone_number : option pystr)
  (is_admin : Z) (d : udb) : option bool * udb :=
  if negb (udb_ok d) then (None, d) else
  let conflict := existsb (fun u => sql_eq_text (u_telegram_id u) telegram_id) (users d) in
  let users' :=
    if conflict then
      map (fun u => if sql_eq_text (u_telegram_id u) telegram_id
                    then set_user_row u username phone_number else u) (users d)
    else
      users d ++ [{| u_id := users_next d; u_username := username;
                     u_telegram_id := telegram_id; u_phone_number := phone_number;
                     u_is_admin := is_admin |}] in
  (Some true, {| users := users'; users_next := users_next d + 1;
                 sms_verified_by := sms_verified_by d; verifications := verifications d;
                 verification_next := verification_next d; udb_ok := udb_ok d |}).

(** [add_verification(user_id, sms_id, status)] with [now] the text of
    [datetime.now()]: a status outside [('success', 'failed')] violates
    the CHECK constraint, the handler returns [False] and the
    uncommitted transaction is rolled back; [None] is the exception of
    [sqlite3.connect]. Foreign keys are not enforced (SQLite's default). *)
Definition add_verification (user_id : Z) (sms_id : option Z) (status now : pystr)
  (d : udb) : option bool * udb :=
  if negb (udb_ok d) then (None, d) else
  if negb (PyStr.eqb status (str_of "success") || PyStr.eqb status (str_of "failed"))
  then (Some false, d) else
  let v := {| v_id := verification_next d; v_user_id := user_id; v_sms_id := sms_id;
              v_status := status; v_verified_at := now |} in
  let vb :=
    if PyStr.eqb status (str_of "success") then
      map (fun p => if sql_eq_int (Some (fst p)) sms_id then (fst p, Some user_id) else p)
          (sms_verified_by d)
    else sms_verified_by d in
  (Some true, {| users := users d; users_next := users_next d;
                 sms_verified_by := vb; verifications := verifications d ++ [v];
                 verification_next := verification_next d + 1; udb_ok := udb_ok d |}).

(** SQLite's order on TEXT (byte order of UTF-8, that is code point
    order). *)
Fixpoint text_ltb (a b : pystr) : bool :=
  match a, b with
  | [], [] => false
  | [], _ :: _ => true
  | _ :: _, [] => false
  | x :: a', y :: b' => (x <? y) || ((x =? y) && text_ltb a' b')
  end.

(** SQL [MAX(...)] over TEXT values ([NULL] on no row). *)
Definition max_text (xs : list pystr) : option pystr :=
  fold_left (fun acc x => match acc with
                          | None => Some x
                          | Some m => Some (if text_ltb m x then x else m)
                          end) xs None.

(** [get_user_stats(user_id)]: [(successful_verifications,
    last_activity)]. the row count is never [NULL], so [successful or 0] is
    the count. A failing [sqlite3.connect] sends the handler to its
    return, but the [finally] clause then raises [UnboundLocalError]
    ([None]). *)
Definition get_user_stats (user_id : Z) (d : udb) : option (Z * option pystr) :=
  if negb (udb_ok d) then None else
  let succ := filter (fun v => (v_user_id v =? user_id) &&
                               PyStr.eqb (v_status v) (str_of "success"))
                     (verifications d) in
  Some (Z.of_nat (List.length succ), max_text (map v_verified_at succ)).

End Users.

(** ** UTF-16 decoders: [_cached_decode_ucs2] and [decode_ucs2_message]
    (modem.py) *)
Module Ucs2.
Import Decode.

(** [Py_ISSPACE]: the ASCII whitespace [bytes.fromhex] skips. *)
Definition py_isspace (c : Z) : bool := (c =? 32) || ((9 <=? c) && (c <=? 13)).

(** The loop of [_PyBytes_FromHex] on an ASCII string: whitespace is
    skipped before each byte, and each byte is two hex digits. *)
Fixpoint fromhex_loop (s : pystr) : option (list Z) :=
  match s with
  | [] => Some []
  | c :: r =>
      if py_isspace c then fromhex_loop r else
      match r with
      | [] => None
      | c2 :: r2 =>
          if is_hex_char c && is_hex_char c2 then
            match fromhex_loop r2 with
            | Some bs => Some (16 * hex_nibble c + hex_nibble c2 :: bs)
            | None => None
            end
          else None
      end
  end.

(** [bytes.fromhex(s)]; [None] is the [ValueError] (a non-ASCII
    character is refused up front). *)
Definition bytes_fromhex (s : pystr) : option (list Z) :=
  if forallb (fun c => c <? 128) s then fromhex_loop s else None.

Definition is_high_surrogate (u : Z) : bool := (55296 <=? u) && (u <=? 56319).
Definition is_low_surrogate (u : Z) : bool := (56320 <=? u) && (u <=? 57343).

(** [Py_UNICODE_JOIN_SURROGATES(high, low)] *)
Definition join_surrogates (hi lo : Z) : Z :=
  Z.lor (Z.shiftl (Z.land hi 1023) 10) (Z.land lo 1023) + 65536.

(** [bytes.decode('utf-16be', errors='ignore')] as CPython's UTF-16
    decoder reports its errors: a low surrogate without a high one skips
    its two bytes ("illegal encoding"); a high surrogate followed by a
    unit that is no low surrogate skips its own two bytes ("illegal
    UTF-16 surrogate"); a high surrogate at the end, or a last odd byte,
    skips the rest. *)
Fixpoint utf16be_decode_ignore (bs : list Z) : pystr :=
  match bs with
  | b1 :: b2 :: r =>
      let u := b1 * 256 + b2 in
      if negb (is_surrogate u) then u :: utf16be_decode_ignore r
      else if negb (is_high_surrogate u) then utf16be_decode_ignore r
      else match r with
           | b3 :: b4 :: r' =>
               let v := b3 * 256 + b4 in
               if is_low_surrogate v then join_surrogates u v :: utf16be_decode_ignore r'
               else utf16be_decode_ignore r
           | _ => []
           end
  | _ => []
  end.

(** [bytes.decode('utf-16be')]: every error of the decoder above raises
    [UnicodeDecodeError] ([None]). *)
Fixpoint utf16be_decode_strict (bs : list Z) : option pystr :=
  match bs with
  | [] => Some []
  | [_] => None
  | b1 :: b2 :: r =>
      let u := b1 * 256 + b2 in
      if negb (is_surrogate u) then option_map (cons u) (utf16be_decode_strict r)
      else if negb (is_high_surrogate u) then None
      else match r with
           | b3 :: b4 :: r' =>
               let v := b3 * 256 + b4 in
               if is_low_surrogate v
               then option_map (cons (join_surrogates u v)) (utf16be_decode_strict r')
               else None
           | _ => None
           end
  end.

(** [_cached_decode_ucs2(hex_string)] (the [lru_cache] does not change
    results); every exception lands in the handler, which returns
    [hex_string]. *)
Definition _cached_decode_ucs2 (hex_string : pystr) : pystr :=
  match hex_string with
  | [] => hex_string
  | _ =>
      if all_hex hex_string then
        match bytes_fromhex hex_string with
        | Some bs =>
            match utf16be_decode_strict bs with
            | Some t => t
            | None => hex_string
            end
        | None => hex_string
        end
      else hex_string
  end.

(** [decode_ucs2_message(hex_data)] *)
Definition decode_ucs2_message (hex_data : pystr) : pystr :=
  match bytes_fromhex hex_data with
  | Some bs => utf16be_decode_ignore bs
  | None => hex_data
  end.

End Ucs2.

(** ** Address decoding: [decode_phone_number] and [decode_7bit_gsm]
    (modem.py) *)
Module Phone.

(** [int(s, 2)]: as [py_int], with the [0b] prefix of base 2. *)
Definition py_int2 (s : pystr) : option Z :=
  let t := strip s in
  let '(sgn, body) :=
    match t with
    | 43 :: r => (1, r)
    | 45 :: r => (-1, r)
    | _ => (1, t)
    end in
  let digits :=
    match body with
    | 48 :: x :: r =>
        if (x =? 98) || (x =? 66) then
          match r with 95 :: r' => r' | _ => r end
        else body
    | _ => body
    end in
  match digits_us 2 digits 0 true with
  | Some v => Some (sgn * v)
  | None => None
  end.

(** Binary digits of a non-negative integer. *)
Fixpoint bin_fuel (fuel : nat) (n : Z) : pystr :=
  match fuel with
  | O => []
  | S f => (if n <? 2 then [] else bin_fuel f (n / 2)) ++ [48 + n mod 2]
  end.

Definition bin_digits (n : Z) : pystr := bin_fuel (S (Z.to_nat (Z.log2 n))) n.

(** [bin(v)[2:]]: for a negative [v], ['-0b101'[2:]] is ['b101']. *)
Definition bin_tail (v : Z) : pystr :=
  if v <? 0 then 98 :: bin_digits (- v) else bin_digits v.

(** [s.zfill(width)] *)
Definition zfill (width : Z) (s : pystr) : pystr :=
  let fill := width - Z.of_nat (List.length s) in
  if fill <=? 0 then s else
  match s with
  | c :: r =>
      if (c =? 43) || (c =? 45) then c :: repeat 48 (Z.to_nat fill) ++ r
      else repeat 48 (Z.to_nat fill) ++ s
  | [] => repeat 48 (Z.to_nat fill)
  end.

(** The chunks [binary[i:i+7]] for [i] in [range(0, len(binary) - 6, 7)]. *)
Fixpoint septets (fuel : nat) (binary : pystr) : list pystr :=
  match fuel with
  | O => []
  | S f =>
      if Nat.leb 7 (List.length binary)
      then firstn 7 binary :: septets f (skipn 7 binary)
      else []
  end.

(** [chr(int(chunk, 2))] for each chunk, skipping code 0; [None] is the
    [ValueError] of [int]. *)
Fixpoint septet_chars (chunks : list pystr) : option pystr :=
  match chunks with
  | [] => Some []
  | c :: r =>
      match py_int2 c, septet_chars r with
      | Some code, Some rest => Some (if 0 <? code then code :: rest else rest)
      | _, _ => None
      end
  end.

(** [decode_7bit_gsm(hex_data)]; the bare [except] returns [hex_data]. *)
Definition decode_7bit_gsm (hex_data : pystr) : pystr :=
  match py_int 16 hex_data with
  | None => hex_data
  | Some v =>
      let binary := zfill (Z.of_nat (List.length hex_data) * 4) (bin_tail v) in
      match septet_chars (septets (List.length binary) binary) with
      | Some cs => cs
      | None => hex_data
      end
  end.

(** The loop of [decode_phone_number]: [phone_hex[i+1] + phone_hex[i]]
    for each pair, the last odd character as it is. *)
Fixpoint swap_semi_octets (s : pystr) : pystr :=
  match s with
  | a :: b :: r => b :: a :: swap_semi_octets r
  | _ => s
  end.

Fixpoint lstrip_char (c : Z) (s : pystr) : pystr :=
  match s with
  | x :: r => if x =? c then lstrip_char c r else s
  | [] => []
  end.

(** [s.rstrip(c)] for a one-character [c] *)
Definition rstrip_char (c : Z) (s : pystr) : pystr := rev (lstrip_char c (rev s)).

(** [decode_phone_number(phone_hex, type_of_address)]; nothing in its
    [try] block raises on a [str] argument ([decode_7bit_gsm] catches
    its own errors). *)
Definition decode_phone_number (phone_hex : pystr) (type_of_address : Z) : pystr :=
  if type_of_address =? 208 then decode_7bit_gsm phone_hex else
  let phone := rstrip_char 102 (rstrip_char 70 (swap_semi_octets phone_hex)) in
  if type_of_address =? 145 then 43 :: phone else phone.

End Phone.

(** ** Storage scan: [scan_all_messages] (modem.py) *)
Module Scan.
Import Session.

(** Binding of positional arguments to a [def] whose parameters have no
    defaults: [None] is the [TypeError] of a wrong argument count. *)
Definition bind_positional {A} (params : list pystr) (args : list A)
  : option (list (pystr * A)) :=
  if Nat.eqb (List.length params) (List.length args)
  then Some (combine params args) else None.

(** The argument values of the call. *)
Inductive arg := AStr (s : pystr) | ASet (xs : list Z) | ASerial (ser : serial).

Definition process_cmgl_response_params : list pystr :=
  [str_of "resp"; str_of "processed_indices"; str_of "ser"].

(** [f'AT+CPMS="{storage}","{storage}","{storage}"'] *)
Definition cpms (storage : pystr) : pystr :=
  str_of "AT+CPMS=" ++ [34] ++ storage ++ [34; 44; 34] ++ storage ++
  [34; 44; 34] ++ storage ++ [34].

Section WithCallee.
(** The body of [process_cmgl_response] once its arguments are bound:
    a message count, or an exception ([None]). *)
Variable process_cmgl_response_body : list (pystr * arg) -> serial -> option Z * serial.

(** One iteration of the loop of [scan_all_messages] (waits in ms); an
    exception of the body lands in the handler of the loop. *)
Definition scan_storage (acc : Z * serial) (storage : pystr) : Z * serial :=
  let '(total_processed, ser) := acc in
  let '(resp, ser1) := send_at_command ser (cpms storage) 2000 in
  if contains (str_of "ERROR") resp then (total_processed, ser1) else
  let '(resp2, ser2) := send_at_command ser1 (str_of "AT+CMGL=4") 3000 in
  if contains (str_of "+CMGL:") resp2 then
    match bind_positional process_cmgl_response_params [AStr resp2; ASerial ser2] with
    | None => (total_processed, ser2)
    | Some env =>
        match process_cmgl_response_body env ser2 with
        | (Some n, ser3) => (total_processed + n, ser3)
        | (None, ser3) => (total_processed, ser3)
        end
    end
  else (total_processed, ser2).

(** [scan_all_messages(ser)]: the result and the port afterwards. *)
Definition scan_all_messages (ser : serial) : Z * serial :=
  fold_left scan_storage [str_of "SM"] (0, ser).

End WithCallee.

End Scan.

(** * Properties *)

Import Db Pipeline Decode Session Init Concat.
Import Users Ucs2 Phone Scan.

(** ** Helper lemmas *)

Lemma pystr_eqb_refl (a : pystr) : PyStr.eqb a a = true.
Proof. unfold PyStr.eqb. destruct (list_eq_dec Z.eq_dec a a); congruence. Qed.

Lemma is_prefix_single (c : Z) (l : pystr) :
  is_prefix [c] l = true -> exists r, l = c :: r.
Proof.
  destruct l as [|x r]; simpl; [discriminate|].
  rewrite andb_true_r. intro H. apply Z.eqb_eq in H. subst. eauto.
Qed.

Lemma contains_single_In (c : Z) (l : pystr) :
  contains [c] l = true -> In c l.
Proof.
  induction l as [|x r IH]; simpl.
  - discriminate.
  - intro H. apply orb_true_iff in H as [H|H].
    + apply andb_true_iff in H as [H _]. apply Z.eqb_eq in H. auto.
    + auto.
Qed.

Lemma not_In_contains_single (c : Z) (l : pystr) :
  ~ In c l -> contains [c] l = false.
Proof.
  intro H. destruct (contains [c] l) eqn:E; auto.
  exfalso. apply H. now apply contains_single_In.
Qed.

Lemma dec_fuel_digits (f : nat) (n x : Z) :
  In x (dec_fuel f n) -> 48 <= x <= 57.
Proof.
  revert n. induction f as [|f IH]; cbn [dec_fuel]; intros n H; [contradiction|].
  apply in_app_iff in H as [H|H].
  - destruct (n <? 10); [contradiction|]. eapply IH; eauto.
  - destruct H as [H|[]]. subst. pose proof (Z.mod_pos_bound n 10 ltac:(lia)). lia.
Qed.

Lemma fmt_int_chars (w z x : Z) :
  In x (fmt_int w z) -> x = 45 \/ 48 <= x <= 57.
Proof.
  unfold fmt_int, zpad, dec_digits. intro H.
  assert (Hd : forall ds, (forall y, In y ds -> 48 <= y <= 57) ->
                 forall k, In x (repeat 48 k ++ ds) -> 48 <= x <= 57).
  { intros ds Hds k Hin. apply in_app_iff in Hin as [Hin|Hin].
    - apply repeat_spec in Hin. lia.
    - auto. }
  destruct (z <? 0).
  - destruct H as [H|H]; [left; lia|]. right. eapply Hd; [|exact H].
    intros y Hy. eapply dec_fuel_digits; eauto.
  - right. eapply Hd; [|exact H]. intros y Hy. eapply dec_fuel_digits; eauto.
Qed.

Lemma dec_fuel_nonempty (f : nat) (n : Z) : dec_fuel (S f) n <> [].
Proof. simpl. intro H. apply app_eq_nil in H as [_ H]. discriminate. Qed.

Lemma fmt_int_nonempty (w z : Z) : fmt_int w z <> [].
Proof.
  unfold fmt_int, zpad, dec_digits. destruct (z <? 0); [discriminate|].
  intro H. apply app_eq_nil in H as [_ H]. eapply dec_fuel_nonempty; eauto.
Qed.

Lemma try_except_state {A} (body : M A) (d : A) (s : st) :
  snd (try_except body d s) = snd (body s).
Proof. unfold try_except. destruct (body s) as [[e|a] s']; reflexivity. Qed.

(** ** C1 *)

(** C1 (counterexample): two calls of [save_sms] with the same sender and
    content both insert a row; the second is not reported as a duplicate
    and the table then holds two rows for the pair. *)
Lemma C1_save_sms_twice_two_rows :
  let d0 := {| rows := []; next_id := 1; db_ok := true |} in
  let snd1 := save_sms (str_of "REC UNREAD") (str_of "+213555000111")
                (str_of "23/01/15,10:20:00+00") (str_of "hello") d0 in
  let snd2 := save_sms (str_of "REC UNREAD") (str_of "+213555000111")
                (str_of "23/01/15,10:20:00+00") (str_of "hello") (snd snd1) in
  fst snd1 = Some 1 /\ fst snd2 = Some 2 /\
  count_pair (str_of "+213555000111") (str_of "hello") (snd snd2) = 2%nat.
Proof. vm_compute. repeat split. Qed.

Lemma count_pair_save (status sender ts content : pystr) (d : db) :
  db_ok d = true ->
  count_pair sender content (snd (save_sms status sender ts content d)) =
  S (count_pair sender content d).
Proof.
  intro Hok. unfold save_sms, count_pair. rewrite Hok. simpl.
  rewrite filter_app, length_app. simpl.
  unfold row_matches at 2. simpl. rewrite !pystr_eqb_refl. simpl. lia.
Qed.

(** C1 (amended): [save_sms] performs no duplicate check: on a reachable
    database every call inserts one more row for its (sender, content)
    pair and returns the new id. At-most-once storage rests on the
    callers only: when [force_save] is false and the pair is already
    stored, [process_message] and [process_and_delete_message] leave the
    table unchanged. *)
Theorem C1_save_sms_no_dedup_caller_guard :
  (forall status sender ts content d, db_ok d = true ->
     fst (save_sms status sender ts content d) = Some (next_id d) /\
     count_pair sender content (snd (save_sms status sender ts content d)) =
     S (count_pair sender content d)) /\
  (forall (save : store_fn) index status sender dt content s,
     content <> [] -> sender <> [] ->
     message_exists sender content (st_db s) = Some true ->
     st_db (snd (process_message_with save index status sender dt content false s)) = st_db s /\
     st_db (snd (process_and_delete_message_with save index status sender dt content false s)) = st_db s).
Proof.
  split.
  - intros status sender ts content d Hok. split.
    + unfold save_sms. now rewrite Hok.
    + now apply count_pair_save.
  - intros save index status sender dt content s Hc Hs He.
    destruct content as [|c cs]; [congruence|]. destruct sender as [|x xs]; [congruence|].
    unfold process_message_with, process_and_delete_message_with.
    rewrite !try_except_state.
    unfold message_exists_m, bind, get_db, log. rewrite He. simpl.
    split; [reflexivity|].
    unfold manager_delete_sms. simpl.
    unfold bind, delete_sms, try_except, log, next_delete_reply, ret. simpl.
    destruct (st_delete_replies s) as [|b1 r1]; simpl; auto;
    destruct b1; simpl; auto;
    destruct r1 as [|b2 r2]; simpl; auto; destruct b2; simpl; auto;
    destruct r2 as [|b3 r3]; simpl; auto; destruct b3; simpl; auto.
Qed.

Lemma C1_save_sms_no_dedup_caller_guard_witness :
  let s := {| st_db := {| rows := [{| row_id := 1; row_sender := str_of "+213";
                              row_received_date := DateNull; row_content := str_of "hi";
                              row_is_sent_to_telegram := 1; row_deleted_from_sim := 0 |}];
                          next_id := 2; db_ok := true |};
              st_trace := []; st_delete_replies := [true] |} in
  st_db (snd (process_message 1 (str_of "REC READ") (str_of "+213") (str_of "") (str_of "hi") false s)) = st_db s /\
  fst (save_sms (str_of "REC READ") (str_of "+213") (str_of "") (str_of "hi") (st_db s)) = Some 2.
Proof.
  intro s. split.
  - apply (proj2 C1_save_sms_no_dedup_caller_guard call_save_sms 1 (str_of "REC READ")
             (str_of "+213") (str_of "") (str_of "hi") s); [discriminate | discriminate | reflexivity].
  - apply (proj1 C1_save_sms_no_dedup_caller_guard (str_of "REC READ") (str_of "+213")
             (str_of "") (str_of "hi") (st_db s)). reflexivity.
Defined.

(** ** C7 *)

(** C7: a message whose content or sender is empty is reported as a
    failure by [process_message] (and by [process_and_delete_message]),
    with the state untouched: nothing stored and no [AT+CMGD] written,
    whatever the store callee. *)
Theorem C7_empty_message_kept_on_device :
  forall (save : store_fn) index status sender dt content force s,
  (content = [] \/ sender = []) ->
  process_message_with save index status sender dt content force s = (inr false, s) /\
  process_and_delete_message_with save index status sender dt content force s = (inr false, s).
Proof.
  intros save index status sender dt content force s [H|H]; subst;
    [| destruct content]; split; reflexivity.
Qed.

Lemma C7_empty_message_kept_on_device_witness :
  let s := {| st_db := {| rows := []; next_id := 1; db_ok := true |};
              st_trace := []; st_delete_replies := [true] |} in
  process_message 3 (str_of "REC UNREAD") (str_of "+213555000111")
    (str_of "23/01/15,10:20:00+00") [] FORCE_PROCESS_ALL_MESSAGES s = (inr false, s).
Proof.
  intro s. apply (C7_empty_message_kept_on_device call_save_sms 3 (str_of "REC UNREAD")
    (str_of "+213555000111") (str_of "23/01/15,10:20:00+00") [] FORCE_PROCESS_ALL_MESSAGES s).
  left. reflexivity.
Defined.

(** ** C9 *)

Lemma save_sms_force_save_kw (a b c e : pystr) (f : bool) :
  bind_args save_sms_params [VStr a; VStr b; VStr c; VStr e]
    [(str_of "force_save", VBool f)] = None.
Proof. reflexivity. Qed.

(** C9: the call [save_sms(status, sender, date_time, content,
    force_save=force_save)] never binds (it is a [TypeError]); so once a
    non-empty message reaches the save branch (not yet stored, or
    [force_save] set), [process_message] and [process_and_delete_message]
    return [False] with the table unchanged and nothing written to the
    serial port; the only new log entry is the existence query. *)
Theorem C9_save_branch_type_error :
  (forall a b c e f,
     bind_args save_sms_params [VStr a; VStr b; VStr c; VStr e]
       [(str_of "force_save", VBool f)] = None) /\
  (forall index status sender dt content force found s,
     content <> [] -> sender <> [] ->
     message_exists sender content (st_db s) = Some found ->
     (found = false \/ force = true) ->
     let s' := {| st_db := st_db s;
                  st_trace := st_trace s ++ [EvExists sender content found];
                  st_delete_replies := st_delete_replies s |} in
     process_message index status sender dt content force s = (inr false, s') /\
     process_and_delete_message index status sender dt content force s = (inr false, s')).
Proof.
  split; [exact save_sms_force_save_kw|].
  intros index status sender dt content force found s Hc Hs He Hb s'.
  destruct content as [|c cs]; [congruence|]. destruct sender as [|x xs]; [congruence|].
  assert (Hf : found && negb force = false) by (destruct Hb; subst; auto using andb_false_r).
  unfold process_message, process_and_delete_message,
    process_message_with, process_and_delete_message_with,
    try_except, message_exists_m, bind, get_db, log.
  unfold store, bind, call_save_sms, lift_db_store, call_save_sms_db.
  split; simpl; rewrite He; simpl; rewrite Hf;
    reflexivity.
Qed.

Lemma C9_save_branch_type_error_witness :
  let s := {| st_db := {| rows := []; next_id := 1; db_ok := true |};
              st_trace := []; st_delete_replies := [true; true; true] |} in
  message_exists (str_of "+213555000111") (str_of "hello") (st_db s) = Some false /\
  fst (process_message 1 (str_of "REC UNREAD") (str_of "+213555000111")
         (str_of "23/01/15,10:20:00+00") (str_of "hello") FORCE_PROCESS_ALL_MESSAGES s) = inr false.
Proof.
  intro s. split; [reflexivity|].
  rewrite (proj1 (proj2 C9_save_branch_type_error 1 (str_of "REC UNREAD")
            (str_of "+213555000111") (str_of "23/01/15,10:20:00+00") (str_of "hello")
            FORCE_PROCESS_ALL_MESSAGES false s ltac:(discriminate) ltac:(discriminate)
            eq_refl (or_introl eq_refl))).
  reflexivity.
Defined.

(** ** C10 *)

Lemma decode_pdu_timestamp_text (h ts : pystr) :
  decode_pdu_timestamp h = TsText ts ->
  ts <> [] /\ forall x, In x ts -> x = 45 \/ x = 32 \/ x = 58 \/ 48 <= x <= 57.
Proof.
  unfold decode_pdu_timestamp. intro H.
  destruct (Nat.ltb _ _); [discriminate|].
  destruct (swapped_pair h 0); [|discriminate].
  destruct (swapped_pair h 2); [|discriminate].
  destruct (swapped_pair h 4); [|discriminate].
  destruct (swapped_pair h 6); [|discriminate].
  destruct (swapped_pair h 8); [|discriminate].
  destruct (swapped_pair h 10); [|discriminate].
  destruct (_ || _); [discriminate|]. injection H as <-. split.
  - intro E. apply app_eq_nil in E as [E _]. eapply fmt_int_nonempty; eauto.
  - intros x Hx.
    repeat match goal with
    | H : In x (_ ++ _) |- _ => apply in_app_iff in H as [H|H]
    | H : In x (_ :: _) |- _ => destruct H as [H|H]
    | H : In x (fmt_int _ _) |- _ => apply fmt_int_chars in H
    | H : In x [] |- _ => destruct H
    end; lia.
Qed.

(** C10: [parse_modem_date] returns [None] (stored as SQL [NULL]) for
    every non-empty timestamp without a comma, in particular for every
    formatted string [decode_pdu_timestamp] produces; [save_sms] then
    inserts its row with a [NULL] [received_date]. *)
Theorem C10_no_comma_date_is_null :
  (forall s, s <> [] -> contains [44] s = false -> parse_modem_date s = DateNull) /\
  (forall h ts, decode_pdu_timestamp h = TsText ts -> parse_modem_date ts = DateNull) /\
  (forall status sender ts content d,
     ts <> [] -> contains [44] ts = false -> db_ok d = true ->
     rows (snd (save_sms status sender ts content d)) =
     rows d ++ [{| row_id := next_id d; row_sender := sender;
                   row_received_date := DateNull; row_content := content;
                   row_is_sent_to_telegram := 1; row_deleted_from_sim := 0 |}]).
Proof.
  assert (P : forall s, s <> [] -> contains [44] s = false -> parse_modem_date s = DateNull).
  { intros s Hn Hc. destruct s as [|c r]; [congruence|].
    unfold parse_modem_date. now rewrite Hc. }
  split; [exact P|]. split.
  - intros h ts H. apply decode_pdu_timestamp_text in H as [Hn Hx].
    apply P; auto. apply not_In_contains_single. intro Hi. apply Hx in Hi. lia.
  - intros status sender ts content d Hn Hc Hok.
    unfold save_sms. rewrite Hok. simpl. now rewrite (P ts Hn Hc).
Qed.

Lemma C10_no_comma_date_is_null_witness :
  parse_modem_date (str_of "2023-01-15 10:20:00") = DateNull /\
  parse_modem_date (str_of "2035-01-16 00:00:00") = DateNull.
Proof.
  split.
  - apply (proj1 C10_no_comma_date_is_null); [discriminate | reflexivity].
  - apply (proj1 (proj2 C10_no_comma_date_is_null) (str_of "32100100000000")).
    vm_compute. reflexivity.
Defined.

(** ** C2 *)

Definition is_write (e : event) : Prop :=
  match e with EvWrite _ => True | _ => False end.

(** A store outcome that licenses a device delete: the pair was found
    already stored, or the store returned a (truthy) row id. *)
Definition store_confirmed (sender content : pystr) (e : event) : Prop :=
  e = EvExists sender content true \/
  exists id, e = EvStore sender content (Some id) /\ id <> 0.

(** The new part of a log is guarded when it has no write at all, or its
    writes all come after a confirmed store outcome. *)
Definition guarded (sender content : pystr) (new : list event) : Prop :=
  Forall (fun e => ~ is_write e) new \/
  exists A e ws, new = A ++ e :: ws /\ Forall (fun e => ~ is_write e) A /\
                 store_confirmed sender content e /\ Forall is_write ws.

Lemma split_before_write (A ws pre post : list event) (x : event) :
  Forall (fun e => ~ is_write e) A -> is_write x ->
  A ++ ws = pre ++ x :: post -> exists pre2, pre = A ++ pre2.
Proof.
  revert pre. induction A as [|a A IH]; intros pre HA Hx E.
  - exists pre. reflexivity.
  - inversion HA as [|? ? Ha HA']; subst.
    destruct pre as [|p pre]; simpl in E; injection E as -> E.
    + contradiction.
    + destruct (IH pre HA' Hx E) as [pre2 ->]. exists pre2. reflexivity.
Qed.

Lemma guarded_write_after_store (sender content : pystr) (new pre post : list event) (w : pystr) :
  guarded sender content new -> new = pre ++ EvWrite w :: post ->
  exists e, In e pre /\ store_confirmed sender content e.
Proof.
  intros [H|(A & e & ws & -> & HA & He & Hws)] E.
  - subst. apply Forall_app in H as [_ H]. inversion H. simpl in *. contradiction.
  - assert (HAe : Forall (fun e => ~ is_write e) (A ++ [e])).
    { apply Forall_app. split; auto. constructor; [|constructor].
      destruct He as [->|(id & -> & _)]; simpl; auto. }
    rewrite <- (app_nil_l ws), app_comm_cons, app_assoc in E.
    destruct (split_before_write _ _ _ _ (EvWrite w) HAe I E) as [pre2 ->].
    exists e. split; auto. apply in_app_iff. left. apply in_app_iff. right. left. auto.
Qed.

Lemma delete_sms_trace (index : Z) (s : st) :
  exists b, fst (delete_sms index s) = inr b /\
  st_trace (snd (delete_sms index s)) = st_trace s ++ [EvWrite (cmgd index ++ [13])].
Proof.
  unfold delete_sms, try_except, bind, log, next_delete_reply.
  simpl. destruct (st_delete_replies s); simpl; eauto.
Qed.

Lemma delete_retry_trace (n : nat) (index : Z) (s : st) :
  exists b ws, fst (delete_sms_with_retry_n n index s) = inr b /\
  st_trace (snd (delete_sms_with_retry_n n index s)) = st_trace s ++ ws /\
  Forall is_write ws.
Proof.
  revert s. induction n as [|n IH]; intro s.
  - exists false, []. rewrite app_nil_r. auto.
  - simpl. unfold bind.
    destruct (delete_sms_trace index s) as (b & Hb & Ht).
    destruct (delete_sms index s) as [r s1] eqn:E. simpl in Hb, Ht. subst r.
    destruct b.
    + exists true, [EvWrite (cmgd index ++ [13])]. simpl. repeat split; auto.
      constructor; simpl; auto.
    + destruct (IH s1) as (b' & ws & H1 & H2 & H3).
      exists b', (EvWrite (cmgd index ++ [13]) :: ws). repeat split; auto.
      * rewrite H2, Ht, <- app_assoc. reflexivity.
      * constructor; simpl; auto.
Qed.

Lemma process_message_guarded (f : db_store) index status sender dt content force s :
  exists new,
    st_trace (snd (process_message_with (lift_db_store f) index status sender dt content force s))
    = st_trace s ++ new /\ guarded sender content new.
Proof.
  unfold process_message_with. rewrite try_except_state.
  destruct content as [|c cs]; [exists []; rewrite app_nil_r; split; auto; left; auto|].
  destruct sender as [|x xs]; [exists []; rewrite app_nil_r; split; auto; left; auto|].
  set (sender := x :: xs). set (content := c :: cs).
  unfold message_exists_m, bind, get_db, log, raise, ret.
  destruct (message_exists sender content (st_db s)) as [b|] eqn:He; simpl;
    [|exists []; rewrite app_nil_r; split; auto; left; auto].
  destruct (b && negb force); simpl.
  - exists [EvExists sender content b]. split; auto. left. constructor; simpl; auto.
  - unfold store, bind, lift_db_store, log, ret. simpl.
    destruct (f _ _ (st_db s)) as [[e|r] d'] eqn:Hf; simpl.
    + exists [EvExists sender content b]. split; auto. left. constructor; simpl; auto.
    + destruct (truthy_id r) eqn:Ht; simpl.
      * set (s2 := {| st_db := d'; st_trace := (st_trace s ++ [EvExists sender content b]) ++
                        [EvStore sender content r];
                      st_delete_replies := st_delete_replies s |}).
        destruct (delete_retry_trace 3 index s2) as (b' & ws & H1 & H2 & H3).
        unfold delete_sms_with_retry.
        destruct (delete_sms_with_retry_n 3 index s2) as [[e|u] s3]; simpl in H1; [discriminate|].
        simpl in H2 |- *.
        exists ([EvExists sender content b; EvStore sender content r] ++ ws). split.
        -- rewrite H2. simpl. rewrite <- !app_assoc. reflexivity.
        -- right. exists [EvExists sender content b], (EvStore sender content r), ws.
           split; [reflexivity|]. split; [constructor; simpl; auto|].
           split; [|exact H3].
           right. destruct r as [id|]; [|discriminate]. exists id. split; auto.
              simpl in Ht. apply negb_true_iff, Z.eqb_neq in Ht. auto.
      * exists [EvExists sender content b; EvStore sender content r].
        rewrite <- app_assoc. split; auto. left. repeat constructor; simpl; auto.
Qed.

Lemma process_and_delete_guarded (f : db_store) index status sender ts content force s :
  exists new,
    st_trace (snd (process_and_delete_message_with (lift_db_store f) index status sender ts content force s))
    = st_trace s ++ new /\ guarded sender content new.
Proof.
  unfold process_and_delete_message_with. rewrite try_except_state.
  destruct content as [|c cs]; [exists []; rewrite app_nil_r; split; auto; left; auto|].
  destruct sender as [|x xs]; [exists []; rewrite app_nil_r; split; auto; left; auto|].
  set (sender := x :: xs). set (content := c :: cs).
  unfold message_exists_m, bind, get_db, log, raise, ret.
  destruct (message_exists sender content (st_db s)) as [b|] eqn:He; simpl;
    [|exists []; rewrite app_nil_r; split; auto; left; auto].
  destruct (b && negb force) eqn:Hb; simpl.
  - apply andb_true_iff in Hb as [-> _].
    set (s1 := {| st_db := st_db s; st_trace := st_trace s ++ [EvExists sender content true];
                  st_delete_replies := st_delete_replies s |}).
    destruct (delete_retry_trace 3 index s1) as (b' & ws & H1 & H2 & H3).
    unfold manager_delete_sms.
    destruct (delete_sms_with_retry_n 3 index s1) as [[e|u] s3]; simpl in H1; [discriminate|].
    simpl in H2 |- *.
    exists (EvExists sender content true :: ws). split.
    + rewrite H2. simpl. rewrite <- app_assoc. reflexivity.
    + right. exists [], (EvExists sender content true), ws.
      split; [reflexivity|]. split; [constructor|]. split; [left; reflexivity|exact H3].
  - unfold store, bind, lift_db_store, log, ret. simpl.
    destruct (f _ _ (st_db s)) as [[e|r] d'] eqn:Hf; simpl.
    + exists [EvExists sender content b]. split; auto. left. constructor; simpl; auto.
    + destruct (truthy_id r) eqn:Ht; simpl.
      * set (s2 := {| st_db := d'; st_trace := (st_trace s ++ [EvExists sender content b]) ++
                        [EvStore sender content r];
                      st_delete_replies := st_delete_replies s |}).
        destruct (delete_retry_trace 3 index s2) as (b' & ws & H1 & H2 & H3).
        unfold manager_delete_sms.
        destruct (delete_sms_with_retry_n 3 index s2) as [[e|u] s3]; simpl in H1; [discriminate|].
        simpl in H2 |- *.
        exists ([EvExists sender content b; EvStore sender content r] ++ ws). split.
        -- rewrite H2. simpl. rewrite <- !app_assoc. reflexivity.
        -- right. exists [EvExists sender content b], (EvStore sender content r), ws.
           split; [reflexivity|]. split; [constructor; simpl; auto|].
           split; [|exact H3].
           right. destruct r as [id|]; [|discriminate]. exists id. split; auto.
           simpl in Ht. apply negb_true_iff, Z.eqb_neq in Ht. auto.
      * exists [EvExists sender content b; EvStore sender content r].
        rewrite <- app_assoc. split; auto. left. repeat constructor; simpl; auto.
Qed.

(** C2: in every run of [process_message] and of
    [process_and_delete_message], whatever the database store does, any
    command written to the serial port (an [AT+CMGD] for the message's
    index) comes after a confirmed store outcome for the message's
    (sender, content) in the same run: a store call that returned a row
    id, or an existence check that found the pair. *)
Theorem C2_delete_only_after_store :
  forall (f : db_store) index status sender dt content force s pre w post,
  (st_trace (snd (process_message_with (lift_db_store f) index status sender dt content force s))
     = st_trace s ++ pre ++ EvWrite w :: post \/
   st_trace (snd (process_and_delete_message_with (lift_db_store f) index status sender dt content force s))
     = st_trace s ++ pre ++ EvWrite w :: post) ->
  exists e, In e pre /\ store_confirmed sender content e.
Proof.
  intros f index status sender dt content force s pre w post [H|H].
  - destruct (process_message_guarded f index status sender dt content force s) as (new & Hn & Hg).
    rewrite Hn in H. apply app_inv_head in H.
    eapply guarded_write_after_store; eauto.
  - destruct (process_and_delete_guarded f index status sender dt content force s) as (new & Hn & Hg).
    rewrite Hn in H. apply app_inv_head in H.
    eapply guarded_write_after_store; eauto.
Qed.

Lemma C2_delete_only_after_store_witness :
  let s := {| st_db := {| rows := [{| row_id := 1; row_sender := str_of "+213";
                              row_received_date := DateNull; row_content := str_of "hi";
                              row_is_sent_to_telegram := 1; row_deleted_from_sim := 0 |}];
                          next_id := 2; db_ok := true |};
              st_trace := []; st_delete_replies := [true] |} in
  st_trace (snd (process_and_delete_message 1 (str_of "REC READ") (str_of "+213")
                   (str_of "") (str_of "hi") false s))
    = st_trace s ++ [EvExists (str_of "+213") (str_of "hi") true] ++
      EvWrite (cmgd 1 ++ [13]) :: [] /\
  exists e, In e [EvExists (str_of "+213") (str_of "hi") true] /\
            store_confirmed (str_of "+213") (str_of "hi") e.
Proof.
  intro s.
  assert (H : st_trace (snd (process_and_delete_message 1 (str_of "REC READ") (str_of "+213")
                   (str_of "") (str_of "hi") false s))
    = st_trace s ++ [EvExists (str_of "+213") (str_of "hi") true] ++
      EvWrite (cmgd 1 ++ [13]) :: []) by (vm_compute; reflexivity).
  split; [exact H|].
  exact (C2_delete_only_after_store call_save_sms_db 1 (str_of "REC READ") (str_of "+213")
           (str_of "") (str_of "hi") false s _ _ _ (or_intror H)).
Defined.

(** ** C3 *)

Definition parts_R : list part :=
  [ {| p_index := 1; p_sender := str_of "+213555000111"; p_timestamp := str_of "23/01/15,10:20:00+00";
       p_ref := 7; p_seq := 1; p_total := 3; p_content := str_of "AAA" |};
    {| p_index := 2; p_sender := str_of "+213555000111"; p_timestamp := str_of "23/01/15,10:20:01+00";
       p_ref := 7; p_seq := 3; p_total := 3; p_content := str_of "CCC" |};
    {| p_index := 3; p_sender := str_of "+213555000111"; p_timestamp := str_of "23/01/15,10:20:02+00";
       p_ref := 7; p_seq := 2; p_total := 3; p_content := str_of "BBB" |} ].

(** C3 (counterexample): parts 1/3, 3/3, 2/3 of reference 7 arriving in
    that order are each handed on alone, in arrival order; no hand-off
    carries the concatenation of the parts in part order. *)
Lemma C3_parts_not_reassembled :
  text_mode_handoffs (map listed_of_part parts_R) =
    [(1, str_of "AAA"); (2, str_of "CCC"); (3, str_of "BBB")] /\
  List.length (filter (fun h => PyStr.eqb (snd h) (str_of "AAABBBCCC"))
                 (text_mode_handoffs (map listed_of_part parts_R))) = 0%nat.
Proof. split; reflexivity. Qed.

(** C3 (amended): the reassembly step groups nothing: every listed
    message with a non-empty sender and content is handed to
    [process_message] on its own, with its own content, in listing
    order; in particular each part of a concatenated SMS is processed
    separately. *)
Theorem C3_every_message_passed_through :
  forall msgs,
  text_mode_handoffs msgs =
  map (fun m => (l_index m, l_content m))
      (filter (fun m => negb (PyStr.eqb (l_sender m) []) && negb (PyStr.eqb (l_content m) [])) msgs).
Proof.
  induction msgs as [|m r IH]; [reflexivity|].
  simpl. destruct (l_sender m) as [|x xs] eqn:Es; simpl; [exact IH|].
  destruct (l_content m) as [|y ys] eqn:Ec; simpl; [exact IH|].
  rewrite IH. rewrite Ec. reflexivity.
Qed.

(** ** C4 *)

(** C4 (defect): the nibble-swapped pairs of the timestamp are read in
    base 16, not as decimal digits: for the field [32100100000000]
    (2023-01-10 00:00:00 in semi-octets) the decoder returns
    [2035-01-16 00:00:00]. *)
Lemma C4_decode_pdu_timestamp_reads_hex :
  let h := str_of "32100100000000" in
  (bcd_pair h 0, bcd_pair h 2, bcd_pair h 4, bcd_pair h 6, bcd_pair h 8, bcd_pair h 10)
    = (23, 1, 10, 0, 0, 0) /\
  decode_pdu_timestamp h = TsText (str_of "2035-01-16 00:00:00") /\
  decode_pdu_timestamp h <> TsText (str_of "2023-01-10 00:00:00").
Proof. vm_compute. split; [reflexivity|]. split; [reflexivity|]. discriminate. Qed.

(** ** C5 *)

(** C5 (counterexample): the UTF-16BE hex of [" a"] decodes to ["a"]:
    the cascade strips surrounding whitespace. *)
Lemma C5_leading_space_stripped :
  utf16be_hex [32; 97] = Some (str_of "00200061") /\
  decode_message_content (str_of "00200061") = [97].
Proof. split; reflexivity. Qed.

Definition hex4_ok (u : Z) : bool :=
  match py_int 16 (hex4 u) with Some v => v =? u | None => false end &&
  all_hex (hex4 u).

Fixpoint all_from (n : nat) (u : Z) : bool :=
  match n with
  | O => true
  | S k => hex4_ok u && all_from k (u + 1)
  end.

Lemma all_from_65536 : all_from (Z.to_nat 65536) 0 = true.
Proof. vm_compute. reflexivity. Qed.

Lemma all_from_spec (n : nat) (u v : Z) :
  all_from n u = true -> u <= v < u + Z.of_nat n -> hex4_ok v = true.
Proof.
  revert u. induction n as [|n IH]; cbn [all_from]; intros u H Hv; [simpl in Hv; lia|].
  rewrite Nat2Z.inj_succ in Hv.
  apply andb_true_iff in H as [H1 H2].
  destruct (Z.eq_dec v u) as [->|Hne]; auto. apply (IH (u + 1)); auto; lia.
Qed.

Lemma hex4_ok_bmp (u : Z) : 0 <= u < 65536 ->
  py_int 16 (hex4 u) = Some u /\ all_hex (hex4 u) = true.
Proof.
  intro Hu.
  assert (H : hex4_ok u = true).
  { apply (all_from_spec (Z.to_nat 65536) 0); [exact all_from_65536|].
    rewrite Z2Nat.id by lia. lia. }
  unfold hex4_ok in H. apply andb_true_iff in H as [H1 H2]. split; auto.
  destruct (py_int 16 (hex4 u)) as [v|]; [|discriminate].
  apply Z.eqb_eq in H1. now subst.
Qed.

Definition bmp_char (c : Z) : Prop := 0 < c < 65536 /\ is_surrogate c = false.

Lemma utf16be_hex_bmp (s : pystr) :
  Forall bmp_char s -> utf16be_hex s = Some (List.concat (map hex4 s)).
Proof.
  induction 1 as [|c r [Hc Hs] _ IH]; [reflexivity|].
  cbn [utf16be_hex map List.concat]. rewrite IH, Hs. destruct (c <? 65536) eqn:E; [reflexivity|].
  apply Z.ltb_ge in E. lia.
Qed.

Lemma hex4_length (u : Z) : List.length (hex4 u) = 4%nat.
Proof. reflexivity. Qed.

Lemma concat_hex4_length (s : pystr) :
  List.length (List.concat (map hex4 s)) = (4 * List.length s)%nat.
Proof.
  induction s as [|c r IH]; [reflexivity|].
  cbn [map List.concat]. rewrite length_app, hex4_length, IH. cbn [List.length]. lia.
Qed.

Lemma chunks4_concat_hex4 (fuel : nat) (s : pystr) :
  (List.length s <= fuel)%nat ->
  chunks4 fuel (List.concat (map hex4 s)) = map hex4 s.
Proof.
  revert fuel. induction s as [|c r IH]; intros fuel Hf.
  - destruct fuel; reflexivity.
  - destruct fuel as [|f]; simpl in Hf; [lia|].
    cbn [map List.concat].
    assert (E : exists a b d e, hex4 c = [a; b; d; e]) by (do 4 eexists; reflexivity).
    destruct E as (a & b & d & e & E). rewrite E. cbn [chunks4 firstn skipn app].
    rewrite <- E. f_equal. apply IH. lia.
Qed.

Lemma ucs2_loop_hex4 (s : pystr) :
  Forall bmp_char s -> ucs2_loop (map hex4 s) = Some s.
Proof.
  induction 1 as [|c r [Hc _] _ IH]; [reflexivity|].
  cbn [map ucs2_loop]. rewrite (proj1 (hex4_ok_bmp c ltac:(lia))), IH.
  destruct (c =? 0) eqn:E; [apply Z.eqb_eq in E; lia|reflexivity].
Qed.

Lemma all_hex_concat_hex4 (s : pystr) :
  Forall bmp_char s -> all_hex (List.concat (map hex4 s)) = true.
Proof.
  induction 1 as [|c r [Hc _] _ IH]; [reflexivity|].
  cbn [map List.concat]. unfold all_hex in *. rewrite forallb_app, IH, andb_true_r.
  apply (proj2 (hex4_ok_bmp c ltac:(lia))).
Qed.

Lemma strip_no_edge_space (s : pystr) :
  s <> [] -> is_space (hd 0 s) = false -> is_space (last s 0) = false -> strip s = s.
Proof.
  intros Hn Hh Hl. unfold strip.
  assert (E1 : lstrip s = s).
  { destruct s as [|c r]; [congruence|]. simpl in *. now rewrite Hh. }
  rewrite E1.
  destruct (exists_last Hn) as (l & a & ->).
  rewrite last_last in Hl. rewrite rev_app_distr. simpl. rewrite Hl.
  cbn [rev]. now rewrite rev_involutive.
Qed.

(** C5 (amended): for every non-empty string of BMP characters other
    than NUL and the surrogates, whose first and last characters are not
    whitespace, the UTF-16BE hex rendering exists and
    [decode_message_content] returns the string unchanged. *)
Theorem C5_ucs2_round_trip_bmp :
  forall s : pystr,
  s <> [] -> Forall bmp_char s ->
  is_space (hd 0 s) = false -> is_space (last s 0) = false ->
  exists h, utf16be_hex s = Some h /\ decode_message_content h = s.
Proof.
  intros s Hn Hb Hh Hl.
  exists (List.concat (map hex4 s)). split; [now apply utf16be_hex_bmp|].
  unfold decode_message_content.
  rewrite all_hex_concat_hex4 by exact Hb. simpl negb. cbv iota.
  rewrite concat_hex4_length.
  replace (Nat.modulo (4 * List.length s) 4) with 0%nat
    by (rewrite Nat.mul_comm; symmetry; apply Nat.Div0.mod_mul).
  simpl Nat.eqb. cbv iota.
  rewrite chunks4_concat_hex4 by lia.
  rewrite ucs2_loop_hex4 by exact Hb.
  rewrite strip_no_edge_space by assumption.
  destruct s; [congruence|reflexivity].
Qed.

Lemma C5_ucs2_round_trip_bmp_witness :
  exists h, utf16be_hex [1605; 1585; 1581; 1576; 1575] = Some h /\
            decode_message_content h = [1605; 1585; 1581; 1576; 1575].
Proof.
  apply C5_ucs2_round_trip_bmp.
  - discriminate.
  - repeat constructor; vm_compute; congruence.
  - reflexivity.
  - reflexivity.
Defined.

(** ** C6 *)

Definition ser_ok_then_cmti : serial :=
  {| port_open := true; clock := 0;
     arrivals := [(100, str_of "OK" ++ [13; 10]);
                  (500, str_of "+CMTI: " ++ Init.quoted "SM" ++ str_of ",3" ++ [13; 10])];
     written := [] |}.

(** C6 (counterexample): the session does not stop at the terminator:
    with [OK] arriving after 100 ms and an unsolicited [+CMTI] after
    500 ms, a 1000 ms command returns both, where accumulation up to the
    terminator returns [OK]. *)
Lemma C6_reads_past_terminator :
  fst (send_at_command ser_ok_then_cmti (str_of "AT") 1000) =
    str_of "OK" ++ [13; 10] ++ str_of "+CMTI: " ++ Init.quoted "SM" ++ str_of ",3" /\
  send_as_specified ser_ok_then_cmti (str_of "AT") 1000 = str_of "OK" /\
  fst (send_at_command ser_ok_then_cmti (str_of "AT") 1000) <>
    send_as_specified ser_ok_then_cmti (str_of "AT") 1000.
Proof. vm_compute. split; [reflexivity|]. split; [reflexivity|]. discriminate. Qed.

Lemma filter_filter_and {A} (p q : A -> bool) (l : list A) :
  filter p (filter q l) = filter (fun x => q x && p x) l.
Proof.
  induction l as [|x r IH]; [reflexivity|].
  simpl. destruct (q x); simpl; [destruct (p x); simpl; rewrite IH|]; auto.
Qed.

(** C6 (amended): [send_at_command] writes the command followed by
    [\r], waits the whole [wait], then makes a single read that returns
    (stripped) every chunk received during the wait, whether or not [OK]
    or [ERROR] is among them and including what follows them; chunks
    arriving after the wait stay buffered. It never raises: when the port
    is closed the empty string is returned and nothing is written. *)
Theorem C6_send_single_read_after_wait :
  forall (ser : serial) (cmd : pystr) (wait : Z),
  (port_open ser = false -> send_at_command ser cmd wait = ([], ser)) /\
  (port_open ser = true ->
   written (snd (send_at_command ser cmd wait)) = written ser ++ [cmd ++ [13]] /\
   clock (snd (send_at_command ser cmd wait)) = clock ser + wait /\
   fst (send_at_command ser cmd wait) =
     strip (List.concat (map snd (filter (fun a => (clock ser <? fst a) &&
                                                 (fst a <=? clock ser + wait))
                                         (arrivals ser)))) /\
   arrivals (snd (send_at_command ser cmd wait)) =
     filter (fun a => (clock ser <? fst a) && (clock ser + wait <? fst a)) (arrivals ser)).
Proof.
  intros ser cmd wait. split.
  - intro H. unfold send_at_command. now rewrite H.
  - intro H. unfold send_at_command. rewrite H. simpl.
    rewrite !filter_filter_and. unfold arrived_by.
    assert (E : forall (g : Z * pystr -> bool),
               filter (fun x => negb (fst x <=? clock ser) && g x) (arrivals ser) =
               filter (fun x => (clock ser <? fst x) && g x) (arrivals ser)).
    { intro g. apply filter_ext. intros [t c]. simpl. now rewrite Z.ltb_antisym. }
    rewrite !E.
    assert (E2 : filter (fun x => (clock ser <? fst x) && negb (fst x <=? clock ser + wait))
                   (arrivals ser) =
                 filter (fun a => (clock ser <? fst a) && (clock ser + wait <? fst a))
                   (arrivals ser)).
    { apply filter_ext. intros [t c]. simpl. now rewrite !Z.ltb_antisym. }
    rewrite E2. repeat split; reflexivity.
Qed.

Lemma C6_send_single_read_after_wait_witness :
  written (snd (send_at_command ser_ok_then_cmti (str_of "AT") 1000)) = [str_of "AT" ++ [13]] /\
  send_at_command {| port_open := false; clock := 0; arrivals := []; written := [] |}
    (str_of "AT") 1000 = ([], {| port_open := false; clock := 0; arrivals := []; written := [] |}).
Proof.
  split.
  - apply (proj2 (C6_send_single_read_after_wait ser_ok_then_cmti (str_of "AT") 1000) eq_refl).
  - apply (proj1 (C6_send_single_read_after_wait
                    {| port_open := false; clock := 0; arrivals := []; written := [] |}
                    (str_of "AT") 1000) eq_refl).
Defined.

(** ** C8 *)

(** C8: once the configuration steps of [init_modem] have chosen the mode
    [m], the next command is the mode query [AT+CMGF?]; initialisation
    fails with [ModeNotSet m] exactly when its response does not contain
    the digit of [m], and otherwise returns [True] with [SMS_MODE = m]. *)
Theorem C8_mode_verified_after_configuration :
  forall pref s m s1,
  init_configure pref s = (inr m, s1) ->
  (exists rest, sent (snd (init_modem pref s)) = sent s1 ++ str_of "AT+CMGF?" :: rest) /\
  (contains (expected_value m) (hd [] (replies s1)) = false ->
     fst (init_modem pref s) = inl (ModeNotSet m)) /\
  (contains (expected_value m) (hd [] (replies s1)) = true ->
     fst (init_modem pref s) = inr true /\ SMS_MODE (snd (init_modem pref s)) = m).
Proof.
  intros pref s m s1 H.
  unfold init_modem, ibind. rewrite H.
  unfold init_verify, ibind, send, ifail, iret, set_SMS_MODE.
  destruct (replies s1) as [|r [|r2 rs2]]; cbv beta iota zeta;
    [ destruct (contains (expected_value m) []) eqn:E
    | destruct (contains (expected_value m) r) eqn:E
    | destruct (contains (expected_value m) r) eqn:E ]; simpl;
    (split; [first [ exists []; reflexivity
                   | exists [str_of "AT+CPMS?"]; rewrite <- app_assoc; reflexivity ] |]);
    split; intro Hc; try discriminate; simpl in E; try congruence; auto.
Qed.

Definition modem_text_ok : modem :=
  {| replies := [str_of "OK"; str_of "OK"; str_of "OK"; str_of "OK"; str_of "+CMGF: 1 OK";
                 str_of "OK"; str_of "OK"; str_of "OK"; str_of "OK"; str_of "OK";
                 str_of "OK"; str_of "OK"; str_of "+CMGF: 1 OK"; str_of "OK"];
     sent := []; SMS_MODE := PDU |}.

Lemma C8_mode_verified_after_configuration_witness :
  fst (init_modem (str_of "AUTO") modem_text_ok) = inr true /\
  SMS_MODE (snd (init_modem (str_of "AUTO") modem_text_ok)) = TEXT.
Proof.
  apply (proj2 (proj2 (C8_mode_verified_after_configuration (str_of "AUTO") modem_text_ok TEXT
           (snd (init_configure (str_of "AUTO") modem_text_ok)) eq_refl))).
  reflexivity.
Defined.

(** * Further properties of the code *)

(** ** Persistence (db.py) *)

Lemma row_matches_mark (msg_id : Z) (sender content : pystr) (r : sms_row) :
  row_matches sender content (mark_deleted_row msg_id r) = row_matches sender content r.
Proof. unfold mark_deleted_row. destruct (row_id r =? msg_id); reflexivity. Qed.

Lemma row_id_mark (msg_id : Z) (r : sms_row) : row_id (mark_deleted_row msg_id r) = row_id r.
Proof. unfold mark_deleted_row. destruct (row_id r =? msg_id); reflexivity. Qed.

Lemma existsb_mark (msg_id : Z) (sender content : pystr) (l : list sms_row) :
  existsb (row_matches sender content) (map (mark_deleted_row msg_id) l) =
  existsb (row_matches sender content) l.
Proof. induction l as [|r l IH]; simpl; [reflexivity|]. now rewrite row_matches_mark, IH. Qed.

Lemma filter_mark_length (msg_id : Z) (sender content : pystr) (l : list sms_row) :
  List.length (filter (row_matches sender content) (map (mark_deleted_row msg_id) l)) =
  List.length (filter (row_matches sender content) l).
Proof.
  induction l as [|r l IH]; simpl; [reflexivity|].
  rewrite row_matches_mark. destruct (row_matches sender content r); simpl; auto.
Qed.

(** [verify_message_saved] finds a pair right after [save_sms] stored
    it, exactly when the database opens; it answers as [message_exists]
    does, except on a failing connection, where it returns [False] and
    [message_exists] raises. *)
Theorem verify_message_saved_after_save_sms :
  forall (status sender timestamp content : pystr) (d : db),
  verify_message_saved sender content (snd (save_sms status sender timestamp content d)) = db_ok d /\
  (forall s c, message_exists s c d =
               if db_ok d then Some (verify_message_saved s c d) else None).
Proof.
  intros status sender timestamp content d. split.
  - unfold save_sms, verify_message_saved. destruct (db_ok d) eqn:E; cbn [snd rows db_ok]; [|now rewrite E].
    rewrite existsb_app. cbn [existsb]. unfold row_matches at 2. cbn [row_sender row_content].
    rewrite !pystr_eqb_refl. now rewrite !orb_true_r.
  - intros s c. unfold message_exists, verify_message_saved. now destruct (db_ok d).
Qed.

(** [mark_message_deleted] reports success whenever the database opens,
    whether or not a row has that id, and changes nothing but the
    [deleted_from_sim] flag: the row ids, the next id and the answers of
    [message_exists] and [count_pair] stay the same. *)
Theorem mark_message_deleted_only_flags :
  forall (msg_id : Z) (d : db) (sender content : pystr),
  fst (mark_message_deleted msg_id d) = (if db_ok d then Some true else None) /\
  message_exists sender content (snd (mark_message_deleted msg_id d)) = message_exists sender content d /\
  count_pair sender content (snd (mark_message_deleted msg_id d)) = count_pair sender content d /\
  map row_id (rows (snd (mark_message_deleted msg_id d))) = map row_id (rows d) /\
  next_id (snd (mark_message_deleted msg_id d)) = next_id d.
Proof.
  intros msg_id d sender content. unfold mark_message_deleted.
  destruct (db_ok d) eqn:E; cbn [fst snd rows next_id]; [|repeat split].
  unfold message_exists, count_pair. cbn [rows db_ok]. rewrite ?E.
  rewrite existsb_mark, filter_mark_length, map_map.
  repeat split. apply map_ext. apply row_id_mark.
Qed.



Fixpoint z_range_all (f : Z -> bool) (n : nat) (u : Z) : bool :=
  match n with
  | O => true
  | S k => f u && z_range_all f k (u + 1)
  end.

Lemma z_range_all_spec (f : Z -> bool) (n : nat) (u v : Z) :
  z_range_all f n u = true -> u <= v < u + Z.of_nat n -> f v = true.
Proof.
  revert u. induction n as [|n IH]; cbn [z_range_all]; intros u H Hv; [simpl in Hv; lia|].
  rewrite Nat2Z.inj_succ in Hv.
  apply andb_true_iff in H as [H1 H2].
  destruct (Z.eq_dec v u) as [->|Hne]; auto. apply (IH (u + 1)); auto; lia.
Qed.

Definition is_digit (c : Z) : bool := (48 <=? c) && (c <=? 57).

Definition two_digits_ok (n : Z) : bool :=
  forallb is_digit (fmt_int 2 n) &&
  match py_int 10 (fmt_int 2 n) with Some v => v =? n | None => false end.

Lemma two_digits_all : z_range_all two_digits_ok 100 0 = true.
Proof. vm_compute. reflexivity. Qed.

Lemma two_digits (n : Z) : 0 <= n <= 99 ->
  (forall x, In x (fmt_int 2 n) -> 48 <= x <= 57) /\ py_int 10 (fmt_int 2 n) = Some n.
Proof.
  intro Hn. assert (H : two_digits_ok n = true)
    by (apply (z_range_all_spec two_digits_ok 100 0); [exact two_digits_all | lia]).
  unfold two_digits_ok in H. apply andb_true_iff in H as [H1 H2]. split.
  - intros x Hx. rewrite forallb_forall in H1. specialize (H1 x Hx).
    unfold is_digit in H1. apply andb_true_iff in H1 as [A B].
    apply Z.leb_le in A. apply Z.leb_le in B. lia.
  - destruct (py_int 10 (fmt_int 2 n)); [|discriminate]. apply Z.eqb_eq in H2. now subst.
Qed.

Lemma split_on_nonempty (sep : Z) (s : pystr) : split_on sep s <> [].
Proof.
  destruct s as [|c r]; simpl; [discriminate|].
  destruct (c =? sep); [discriminate|]. destruct (split_on sep r); discriminate.
Qed.

Lemma split_on_app_sep (sep : Z) (a b : pystr) :
  split_on sep (a ++ sep :: b) = split_on sep a ++ split_on sep b.
Proof.
  induction a as [|c a IH].
  - simpl. now rewrite Z.eqb_refl.
  - cbn [app split_on]. rewrite IH. destruct (c =? sep); [reflexivity|].
    destruct (split_on sep a) as [|p ps] eqn:E; [now apply split_on_nonempty in E|].
    reflexivity.
Qed.

Lemma split_on_notin (sep : Z) (a : pystr) : ~ In sep a -> split_on sep a = [a].
Proof.
  induction a as [|c a IH]; intro H; [reflexivity|].
  cbn [split_on]. rewrite IH by (intro; apply H; now right).
  destruct (c =? sep) eqn:E; [apply Z.eqb_eq in E; subst; exfalso; apply H; now left|].
  reflexivity.
Qed.

Lemma hd_split_app (sep : Z) (a b : pystr) :
  ~ In sep a -> hd [] (split_on sep (a ++ b)) = a ++ hd [] (split_on sep b).
Proof.
  induction a as [|c a IH]; intro H; [reflexivity|].
  cbn [app split_on].
  destruct (c =? sep) eqn:E; [apply Z.eqb_eq in E; subst; exfalso; apply H; now left|].
  rewrite <- IH by (intro; apply H; now right).
  destruct (split_on sep (a ++ b)) as [|p ps] eqn:E2; [now apply split_on_nonempty in E2|].
  reflexivity.
Qed.

Lemma length_split_on (sep : Z) (s : pystr) :
  List.length (split_on sep s) = S (count_occ Z.eq_dec s sep).
Proof.
  induction s as [|c r IH]; [reflexivity|].
  cbn [split_on count_occ]. destruct (c =? sep) eqn:E.
  - apply Z.eqb_eq in E. subst. destruct (Z.eq_dec sep sep); [|congruence].
    cbn [List.length]. now rewrite IH.
  - destruct (Z.eq_dec c sep) as [Heq|_]; [apply Z.eqb_neq in E; congruence|].
    destruct (split_on sep r) as [|p ps]; simpl in *; lia.
Qed.

Lemma In_contains_single (c : Z) (l : pystr) : In c l -> contains [c] l = true.
Proof.
  induction l as [|x r IH]; [intros []|].
  intros [->|H]; cbn [contains is_prefix].
  - now rewrite Z.eqb_refl.
  - rewrite IH by exact H. apply orb_true_r.
Qed.

Lemma notin_fmt2 (n c : Z) : 0 <= n <= 99 -> (c < 48 \/ 57 < c) -> ~ In c (fmt_int 2 n).
Proof. intros Hn Hc Hin. apply (proj1 (two_digits n Hn)) in Hin. lia. Qed.

(** The date of a [+CMGL]/[+CMGR] header as modems print it:
    [yy/MM/dd,hh:mm:ss] followed by the zone ([+zz] or [-zz]). *)
Definition modem_date_text (y mo d h mi se sgn : Z) (zone : pystr) : pystr :=
  fmt_int 2 y ++ [47] ++ fmt_int 2 mo ++ [47] ++ fmt_int 2 d ++ [44] ++
  fmt_int 2 h ++ [58] ++ fmt_int 2 mi ++ [58] ++ fmt_int 2 se ++ sgn :: zone.

(** [parse_modem_date] turns a modem date with two-digit fields into
    [20yy-MM-dd hh:mm:ss], dropping the zone; the fields are not
    range-checked (month 13 or hour 99 pass through). *)
Theorem parse_modem_date_formats_modem_dates :
  forall (y mo d h mi se sgn : Z) (zone : pystr),
  0 <= y <= 99 -> 0 <= mo <= 99 -> 0 <= d <= 99 ->
  0 <= h <= 99 -> 0 <= mi <= 99 -> 0 <= se <= 99 ->
  (sgn = 43 \/ sgn = 45) -> ~ In 44 zone ->
  parse_modem_date (modem_date_text y mo d h mi se sgn zone) =
  DateText (fmt_int 4 (2000 + y) ++ [45] ++ fmt_int 2 mo ++ [45] ++ fmt_int 2 d ++ [32] ++
            fmt_int 2 h ++ [58] ++ fmt_int 2 mi ++ [58] ++ fmt_int 2 se).
Proof.
  intros y mo d h mi se sgn zone Hy Hmo Hd Hh Hmi Hse Hsgn Hz.
  set (A := fmt_int 2 y ++ [47] ++ fmt_int 2 mo ++ [47] ++ fmt_int 2 d).
  set (T := fmt_int 2 h ++ [58] ++ fmt_int 2 mi ++ [58] ++ fmt_int 2 se).
  assert (ED : modem_date_text y mo d h mi se sgn zone = A ++ 44 :: (T ++ sgn :: zone)).
  { unfold modem_date_text, A, T. now rewrite <- !app_assoc. }
  assert (NA : forall c, (c < 48 \/ 57 < c) -> c <> 47 -> ~ In c A).
  { intros c Hc H47 Hin. unfold A in Hin.
    repeat (apply in_app_iff in Hin as [Hin|Hin]);
      try (eapply notin_fmt2; [|exact Hc|exact Hin]; lia);
      destruct Hin as [Hin|[]]; lia. }
  assert (NT : forall c, (c < 48 \/ 57 < c) -> c <> 58 -> ~ In c T).
  { intros c Hc H58 Hin. unfold T in Hin.
    repeat (apply in_app_iff in Hin as [Hin|Hin]);
      try (eapply notin_fmt2; [|exact Hc|exact Hin]; lia);
      destruct Hin as [Hin|[]]; lia. }
  unfold parse_modem_date. rewrite ED.
  assert (Hc : contains [44] (A ++ 44 :: T ++ sgn :: zone) = true)
    by (apply In_contains_single; apply in_or_app; right; now left).
  destruct (A ++ 44 :: T ++ sgn :: zone) as [|c0 r0] eqn:E0;
    [destruct A; discriminate|].
  rewrite Hc, <- E0.
  rewrite split_on_app_sep, (split_on_notin 44 A) by (apply NA; lia).
  rewrite (split_on_notin 44 (T ++ sgn :: zone)).
  2:{ intro Hin. apply in_app_iff in Hin as [Hin|[Hin|Hin]];
      [revert Hin; apply NT; lia | lia | exact (Hz Hin)]. }
  cbn [app].
  assert (ET : hd [] (split_on 45 (hd [] (split_on 43 (T ++ sgn :: zone)))) = T).
  { rewrite hd_split_app by (apply NT; lia).
    destruct Hsgn as [->| ->].
    - cbn [split_on Z.eqb Pos.eqb hd]. rewrite app_nil_r.
      rewrite split_on_notin by (apply NT; lia). reflexivity.
    - change (45 :: zone) with ([45] ++ zone).
      rewrite (hd_split_app 43 [45] zone) by (intros [H|[]]; lia). cbn [app].
      rewrite hd_split_app by (apply NT; lia). cbn [split_on Z.eqb Pos.eqb hd].
      apply app_nil_r. }
  rewrite ET.
  assert (E47 : split_on 47 A = [fmt_int 2 y; fmt_int 2 mo; fmt_int 2 d]).
  { unfold A. cbn [app]. rewrite !split_on_app_sep.
    rewrite !(split_on_notin 47) by (apply notin_fmt2; lia). reflexivity. }
  assert (E58 : split_on 58 T = [fmt_int 2 h; fmt_int 2 mi; fmt_int 2 se]).
  { unfold T. cbn [app]. rewrite !split_on_app_sep.
    rewrite !(split_on_notin 58) by (apply notin_fmt2; lia). reflexivity. }
  rewrite E47, E58.
  rewrite (proj2 (two_digits y Hy)), (proj2 (two_digits mo Hmo)), (proj2 (two_digits d Hd)),
          (proj2 (two_digits h Hh)), (proj2 (two_digits mi Hmi)), (proj2 (two_digits se Hse)).
  reflexivity.
Qed.

Lemma parse_modem_date_formats_modem_dates_witness :
  parse_modem_date (modem_date_text 23 13 10 99 5 7 43 (str_of "04")) =
  DateText (fmt_int 4 (2000 + 23) ++ [45] ++ fmt_int 2 13 ++ [45] ++ fmt_int 2 10 ++ [32] ++
            fmt_int 2 99 ++ [58] ++ fmt_int 2 5 ++ [58] ++ fmt_int 2 7).
Proof.
  apply parse_modem_date_formats_modem_dates; try lia.
  intros [H|[H|[]]]; discriminate.
Defined.

(** A date text with more than one comma makes the unpacking of
    [date_str.split(',')] raise; the handler returns [datetime.now()]. *)
Theorem parse_modem_date_two_commas_now :
  forall date_str : pystr,
  (2 <= count_occ Z.eq_dec date_str 44%Z)%nat ->
  parse_modem_date date_str = DateNow.
Proof.
  intros s H. unfold parse_modem_date.
  assert (Hin : In 44 s) by (apply (count_occ_In Z.eq_dec); lia).
  rewrite (In_contains_single 44 s Hin).
  pose proof (length_split_on 44 s) as HL.
  destruct s as [|c r]; [destruct Hin|].
  destruct (split_on 44 (c :: r)) as [|a [|b [|e l]]]; cbn [List.length] in HL; try lia.
  reflexivity.
Qed.

Lemma parse_modem_date_two_commas_now_witness :
  (2 <= count_occ Z.eq_dec (str_of "23/01/10,12:00:00+04,x") 44%Z)%nat /\
  parse_modem_date (str_of "23/01/10,12:00:00+04,x") = DateNow.
Proof.
  split; [vm_compute; lia|].
  apply parse_modem_date_two_commas_now. vm_compute. lia.
Defined.

(** ** Users and verifications (db.py) *)

Lemma find_map_update {A} (p : A -> bool) (f : A -> A) (l : list A) :
  (forall x, p (f x) = p x) ->
  find p (map (fun x => if p x then f x else x) l) = option_map f (find p l).
Proof.
  intro Hf. induction l as [|x l IH]; [reflexivity|].
  cbn [map find]. destruct (p x) eqn:E.
  - now rewrite Hf, E.
  - now rewrite E.
Qed.

Lemma find_existsb_false {A} (p : A -> bool) (l : list A) :
  existsb p l = false -> find p l = None.
Proof.
  induction l as [|x l IH]; [reflexivity|].
  cbn [existsb find]. intro H. apply orb_false_iff in H as [H1 H2]. rewrite H1. auto.
Qed.

Lemma find_app_none {A} (p : A -> bool) (l : list A) (x : A) :
  find p l = None -> find p (l ++ [x]) = if p x then Some x else None.
Proof.
  induction l as [|y l IH]; [reflexivity|].
  cbn [app find]. destruct (p y); [discriminate|]. exact IH.
Qed.

Lemma find_some_existsb {A} (p : A -> bool) (l : list A) (u : A) :
  find p l = Some u -> existsb p l = true.
Proof.
  intro H. apply find_some in H as [Hin Hp]. apply existsb_exists. eauto.
Qed.



Lemma max_text_snoc (xs : list pystr) (x : pystr) :
  max_text (xs ++ [x]) =
  Some (match max_text xs with None => x | Some m => if text_ltb m x then x else m end).
Proof. unfold max_text. rewrite fold_left_app. cbn [fold_left]. now destruct (fold_left _ xs None). Qed.



(** The [verified_by] value of the [sms] row with id [id] ([None] when
    there is no such row). *)
Definition verified_by_of (id : Z) (d : udb) : option (option Z) :=
  option_map snd (find (fun p => fst p =? id) (sms_verified_by d)).

(** Only a [success] record marks a message as verified: it sets
    [verified_by] to the user on the row with that [sms_id] and on no
    other; a [failed] record, or one without [sms_id], leaves every row
    as it was. Foreign keys are not enforced, so the call returns [True]
    even when no message has that id. *)
Theorem add_verification_marks_message :
  forall (user_id : Z) (sms_id : option Z) (status now : pystr) (d : udb),
  udb_ok d = true ->
  (PyStr.eqb status (str_of "success") || PyStr.eqb status (str_of "failed")) = true ->
  let '(r, d') := add_verification user_id sms_id status now d in
  r = Some true /\
  forall id, verified_by_of id d' =
    if PyStr.eqb status (str_of "success") && sql_eq_int (Some id) sms_id
    then option_map (fun _ => Some user_id) (verified_by_of id d)
    else verified_by_of id d.
Proof.
  intros user_id sms_id status now d Hok Hs.
  unfold add_verification. rewrite Hok, Hs. cbn [negb]. split; [reflexivity|].
  intro id. unfold verified_by_of. cbn [sms_verified_by].
  destruct (PyStr.eqb status (str_of "success")) eqn:Es; cbn [andb]; [|reflexivity].
  induction (sms_verified_by d) as [|[k vb] l IH]; [now destruct (sql_eq_int (Some id) sms_id)|].
  cbn [map find fst snd].
  destruct (sql_eq_int (Some k) sms_id) eqn:Ek; cbn [fst];
    destruct (k =? id) eqn:Eid; try exact IH.
  - apply Z.eqb_eq in Eid. subst. now rewrite Ek.
  - apply Z.eqb_eq in Eid. subst. now rewrite Ek.
Qed.

Lemma add_verification_marks_message_witness :
  udb_ok {| users := []; users_next := 2; sms_verified_by := [(4, None); (5, None)];
            verifications := []; verification_next := 1; udb_ok := true |} = true /\
  (PyStr.eqb (str_of "success") (str_of "success") ||
   PyStr.eqb (str_of "success") (str_of "failed")) = true /\
  let '(r, d') := add_verification 1 (Some 5) (str_of "success") (str_of "2024-05-01 10:00:00")
                    {| users := []; users_next := 2; sms_verified_by := [(4, None); (5, None)];
                       verifications := []; verification_next := 1; udb_ok := true |} in
  r = Some true /\
  forall id, verified_by_of id d' =
    if PyStr.eqb (str_of "success") (str_of "success") && sql_eq_int (Some id) (Some 5)
    then option_map (fun _ => Some 1)
           (verified_by_of id {| users := []; users_next := 2;
                                 sms_verified_by := [(4, None); (5, None)];
                                 verifications := []; verification_next := 1; udb_ok := true |})
    else verified_by_of id {| users := []; users_next := 2;
                              sms_verified_by := [(4, None); (5, None)];
                              verifications := []; verification_next := 1; udb_ok := true |}.
Proof.
  split; [reflexivity|]. split; [reflexivity|].
  exact (add_verification_marks_message 1 (Some 5) (str_of "success") (str_of "2024-05-01 10:00:00")
           {| users := []; users_next := 2; sms_verified_by := [(4, None); (5, None)];
              verifications := []; verification_next := 1; udb_ok := true |} eq_refl eq_refl).
Defined.

(** ** UTF-16 text through [_cached_decode_ucs2] and [decode_ucs2_message]
    (modem.py) *)

(** The UTF-16 code units of a character, as [encode('utf-16be')] writes
    them. *)
Definition char_units (c : Z) : list Z :=
  if c <? 65536 then [c]
  else let v := c - 65536 in [55296 + Z.shiftr v 10; 56320 + Z.land v 1023].

(** The big-endian bytes of a list of code units. *)
Definition units_bytes (us : list Z) : list Z :=
  List.concat (map (fun u => [u / 256; u mod 256]) us).

Definition hex4_bytes_ok (u : Z) : bool :=
  match hex4 u with
  | [a; b; c; d] =>
      forallb (fun x => is_hex_char x && (x <? 128) && negb (py_isspace x)) [a; b; c; d] &&
      (16 * hex_nibble a + hex_nibble b =? u / 256) &&
      (16 * hex_nibble c + hex_nibble d =? u mod 256)
  | _ => false
  end.

Lemma hex4_bytes_all : z_range_all hex4_bytes_ok (Z.to_nat 65536) 0 = true.
Proof. vm_compute. reflexivity. Qed.

Lemma hex4_bytes (u : Z) : 0 <= u < 65536 -> hex4_bytes_ok u = true.
Proof.
  intro Hu. apply (z_range_all_spec hex4_bytes_ok (Z.to_nat 65536) 0); [exact hex4_bytes_all|].
  rewrite Z2Nat.id by lia. lia.
Qed.

Lemma fromhex_loop_hex4 (u : Z) (rest : pystr) : 0 <= u < 65536 ->
  fromhex_loop (hex4 u ++ rest) =
  option_map (fun bs => u / 256 :: u mod 256 :: bs) (fromhex_loop rest).
Proof.
  intro Hu. pose proof (hex4_bytes u Hu) as H. unfold hex4_bytes_ok in H.
  destruct (hex4 u) as [|a [|b [|c [|d [|x l]]]]]; try discriminate.
  cbn [forallb] in H. repeat rewrite andb_true_iff in H.
  destruct H as [[[[[Ha _] Sa] [[[Hb _] _] [[[Hc _] Sc] [[[Hd _] _] _]]]] E1] E2].
  apply negb_true_iff in Sa. apply negb_true_iff in Sc.
  apply Z.eqb_eq in E1. apply Z.eqb_eq in E2.
  cbn [app fromhex_loop]. rewrite Sa, Ha, Hb, Sc, Hc, Hd. cbn [andb].
  destruct (fromhex_loop rest); cbn [option_map]; [|reflexivity].
  now rewrite E1, E2.
Qed.

Lemma hex4_ascii (u : Z) : 0 <= u < 65536 -> forallb (fun c => c <? 128) (hex4 u) = true.
Proof.
  intro Hu. pose proof (hex4_bytes u Hu) as H. unfold hex4_bytes_ok in H.
  destruct (hex4 u) as [|a [|b [|c [|d [|x l]]]]]; try discriminate.
  cbn [forallb] in H. repeat rewrite andb_true_iff in H.
  destruct H as [[[[[_ La] _] [[[_ Lb] _] [[[_ Lc] _] [[[_ Ld] _] _]]]] _] _].
  cbn [forallb]. now rewrite La, Lb, Lc, Ld.
Qed.

Lemma forallb_concat_hex4 (f : Z -> bool) (us : list Z) :
  (forall u, 0 <= u < 65536 -> forallb f (hex4 u) = true) ->
  Forall (fun u => 0 <= u < 65536) us -> forallb f (List.concat (map hex4 us)) = true.
Proof.
  intros Hf. induction 1 as [|u us Hu _ IH]; [reflexivity|].
  cbn [map List.concat]. rewrite forallb_app, Hf, IH by exact Hu. reflexivity.
Qed.

Lemma fromhex_loop_units (us : list Z) (rest : pystr) :
  Forall (fun u => 0 <= u < 65536) us ->
  fromhex_loop (List.concat (map hex4 us) ++ rest) =
  option_map (fun bs => units_bytes us ++ bs) (fromhex_loop rest).
Proof.
  induction 1 as [|u us Hu _ IH]; [cbn [map List.concat app]; now destruct (fromhex_loop rest)|].
  cbn [map List.concat]. rewrite <- app_assoc, fromhex_loop_hex4, IH by exact Hu.
  now destruct (fromhex_loop rest).
Qed.

Lemma utf16be_hex_units (s h : pystr) : utf16be_hex s = Some h ->
  Forall (fun c => is_surrogate c = false) s /\
  h = List.concat (map hex4 (List.concat (map char_units s))).
Proof.
  revert h. induction s as [|c r IH]; intros h H; cbn [utf16be_hex] in H.
  - injection H as <-. split; [constructor|reflexivity].
  - destruct (utf16be_hex r) as [h'|]; [|discriminate].
    destruct (IH h' eq_refl) as [Hs ->].
    destruct (is_surrogate c) eqn:Es; [discriminate|].
    split; [now constructor|].
    cbn [map List.concat]. rewrite map_app, concat_app. unfold char_units.
    destruct (c <? 65536);
      apply (f_equal (fun o => match o with Some x => x | None => h end)) in H;
      cbn beta iota in H; subst h; cbn [map List.concat].
    + now rewrite (app_nil_r (hex4 c)).
    + rewrite (app_nil_r (hex4 (56320 + _))). now rewrite <- app_assoc.
Qed.

Lemma div_mod_256 (u : Z) : u / 256 * 256 + u mod 256 = u.
Proof. pose proof (Z.div_mod u 256 ltac:(lia)). lia. Qed.

Lemma land_1023 (x : Z) : Z.land x 1023 = x mod 1024.
Proof. change 1023 with (Z.ones 10). now rewrite Z.land_ones by lia. Qed.

Lemma lor_low_bits (q r : Z) : 0 <= r < 1024 ->
  Z.lor (q * 1024) r = q * 1024 + r.
Proof.
  intro Hr.
  assert (H0 : Z.land (q * 1024) r = 0).
  { apply Z.bits_inj'. intros n Hn. rewrite Z.land_spec, Z.bits_0.
    change 1024 with (2 ^ 10).
    destruct (Z.lt_ge_cases n 10) as [Hlt|Hge].
    - now rewrite Z.mul_pow2_bits_low by lia.
    - rewrite <- (Z.mod_small r (2 ^ 10)) by (cbn; lia).
      rewrite Z.mod_pow2_bits_high by lia. apply andb_false_r. }
  rewrite Z.add_nocarry_lxor by exact H0. now rewrite Z.lxor_lor by exact H0.
Qed.

Lemma join_surrogates_split (q r : Z) : 0 <= q < 1024 -> 0 <= r < 1024 ->
  join_surrogates (55296 + q) (56320 + r) = 65536 + q * 1024 + r.
Proof.
  intros Hq Hr. unfold join_surrogates. rewrite !land_1023.
  replace (55296 + q) with (q + 54 * 1024) by lia.
  replace (56320 + r) with (r + 55 * 1024) by lia.
  rewrite !Z_mod_plus_full, !Z.mod_small by lia.
  rewrite Z.shiftl_mul_pow2 by lia. change (2 ^ 10) with 1024.
  rewrite lor_low_bits by lia. lia.
Qed.

Definition py_char (c : Z) : Prop := 0 <= c < 1114112.

Lemma char_units_range (c : Z) : py_char c ->
  Forall (fun u => 0 <= u < 65536) (char_units c).
Proof.
  unfold py_char, char_units. intro Hc. destruct (c <? 65536) eqn:E.
  - apply Z.ltb_lt in E. repeat constructor; lia.
  - apply Z.ltb_ge in E. rewrite Z.shiftr_div_pow2, land_1023 by lia. change (2 ^ 10) with 1024.
    assert ((c - 65536) / 1024 < 1024) by (apply Z.div_lt_upper_bound; lia).
    assert (0 <= (c - 65536) / 1024) by (apply Z.div_pos; lia).
    pose proof (Z.mod_pos_bound (c - 65536) 1024 ltac:(lia)).
    repeat constructor; lia.
Qed.

Lemma units_range (s : pystr) : Forall py_char s ->
  Forall (fun u => 0 <= u < 65536) (List.concat (map char_units s)).
Proof.
  induction 1 as [|c r Hc _ IH]; [constructor|].
  cbn [map List.concat]. apply Forall_app. split; [now apply char_units_range|exact IH].
Qed.

Lemma decode_char (c : Z) (rest : list Z) : py_char c -> is_surrogate c = false ->
  utf16be_decode_ignore (units_bytes (char_units c) ++ rest) = c :: utf16be_decode_ignore rest /\
  utf16be_decode_strict (units_bytes (char_units c) ++ rest) =
    option_map (cons c) (utf16be_decode_strict rest).
Proof.
  unfold py_char, char_units, units_bytes. intros Hc Hs. destruct (c <? 65536) eqn:E.
  - cbn [map List.concat app utf16be_decode_ignore utf16be_decode_strict].
    rewrite div_mod_256, Hs. split; reflexivity.
  - apply Z.ltb_ge in E. rewrite Z.shiftr_div_pow2, land_1023 by lia. change (2 ^ 10) with 1024.
    set (q := (c - 65536) / 1024). set (r := (c - 65536) mod 1024).
    assert (q < 1024) by (apply Z.div_lt_upper_bound; lia).
    assert (0 <= q) by (apply Z.div_pos; lia).
    pose proof (Z.mod_pos_bound (c - 65536) 1024 ltac:(lia)).
    pose proof (Z.div_mod (c - 65536) 1024 ltac:(lia)).
    cbn [map List.concat app utf16be_decode_ignore utf16be_decode_strict].
    rewrite !div_mod_256, join_surrogates_split by (unfold r; lia).
    replace (65536 + q * 1024 + r) with c by (unfold q, r in *; lia).
    unfold is_surrogate, is_high_surrogate, is_low_surrogate.
    replace ((55296 <=? 55296 + q) && (55296 + q <=? 57343)) with true
      by (symmetry; apply andb_true_iff; split; apply Z.leb_le; lia).
    replace ((55296 <=? 55296 + q) && (55296 + q <=? 56319)) with true
      by (symmetry; apply andb_true_iff; split; apply Z.leb_le; lia).
    replace ((56320 <=? 56320 + r) && (56320 + r <=? 57343)) with true
      by (symmetry; apply andb_true_iff; split; apply Z.leb_le; unfold r in *; lia).
    split; reflexivity.
Qed.

Lemma decode_text (s : pystr) (rest : list Z) : Forall py_char s ->
  Forall (fun c => is_surrogate c = false) s ->
  utf16be_decode_ignore (units_bytes (List.concat (map char_units s)) ++ rest) =
    s ++ utf16be_decode_ignore rest /\
  utf16be_decode_strict (units_bytes (List.concat (map char_units s)) ++ rest) =
    option_map (fun t => s ++ t) (utf16be_decode_strict rest).
Proof.
  intro Hc. induction Hc as [|c r Hc _ IH]; intro Hs.
  { cbn [units_bytes map List.concat app]. split; [reflexivity|].
    now destruct (utf16be_decode_strict rest). }
  inversion Hs as [|? ? Hsc Hsr]; subst.
  destruct (IH Hsr) as [IH1 IH2].
  cbn [map List.concat].
  assert (E : units_bytes (char_units c ++ List.concat (map char_units r)) =
              units_bytes (char_units c) ++ units_bytes (List.concat (map char_units r)))
    by (unfold units_bytes; now rewrite map_app, concat_app).
  rewrite E, <- app_assoc.
  destruct (decode_char c (units_bytes (List.concat (map char_units r)) ++ rest) Hc Hsc)
    as [D1 D2].
  rewrite D1, D2, IH1, IH2. split; [reflexivity|].
  now destruct (utf16be_decode_strict rest).
Qed.

(** The first code unit of a text is no low surrogate. *)
Lemma first_unit_not_low (s : pystr) : Forall py_char s ->
  Forall (fun c => is_surrogate c = false) s ->
  match List.concat (map char_units s) with
  | [] => True
  | w :: _ => is_low_surrogate w = false
  end.
Proof.
  intros Hc Hs. destruct Hc as [|c r Hc _]; [exact I|].
  inversion Hs as [|? ? Hsc _]; subst. cbn [map List.concat].
  unfold char_units. destruct (c <? 65536) eqn:E; cbn [app].
  - unfold is_surrogate in Hsc. unfold is_low_surrogate.
    apply andb_false_iff in Hsc as [H|H]; apply Z.leb_gt in H;
      apply andb_false_iff; [left|right]; apply Z.leb_gt; lia.
  - apply Z.ltb_ge in E. unfold py_char in Hc.
    rewrite Z.shiftr_div_pow2 by lia. change (2 ^ 10) with 1024.
    assert ((c - 65536) / 1024 < 1024) by (apply Z.div_lt_upper_bound; lia).
    unfold is_low_surrogate. apply andb_false_iff. left. apply Z.leb_gt. lia.
Qed.

Lemma cached_decode_ucs2_nonempty (h : pystr) : h <> [] ->
  _cached_decode_ucs2 h =
  if all_hex h then
    match bytes_fromhex h with
    | Some bs => match utf16be_decode_strict bs with Some t => t | None => h end
    | None => h
    end
  else h.
Proof. destruct h; [contradiction|reflexivity]. Qed.

(** A text of Unicode characters (code points below [0x110000]), written
    as the hex of its UTF-16BE encoding, is decoded back to itself by
    both [_cached_decode_ucs2] and [decode_ucs2_message], characters
    outside the Basic Multilingual Plane (surrogate pairs) and NUL or
    whitespace characters included. *)
Theorem ucs2_decoders_roundtrip (s h : pystr) :
  Forall py_char s -> utf16be_hex s = Some h ->
  _cached_decode_ucs2 h = s /\ decode_ucs2_message h = s.
Proof.
  intros Hc Hh. destruct (utf16be_hex_units s h Hh) as [Hs ->].
  pose proof (units_range s Hc) as Hu.
  assert (Hb : bytes_fromhex (List.concat (map hex4 (List.concat (map char_units s)))) =
               Some (units_bytes (List.concat (map char_units s)))).
  { unfold bytes_fromhex. rewrite (forallb_concat_hex4 _ _ hex4_ascii Hu).
    rewrite <- (app_nil_r (List.concat (map hex4 _))), fromhex_loop_units by exact Hu.
    cbn [fromhex_loop option_map]. now rewrite app_nil_r. }
  destruct (decode_text s [] Hc Hs) as [D1 D2].
  cbn [utf16be_decode_ignore utf16be_decode_strict option_map] in D1, D2.
  rewrite !app_nil_r in D1, D2.
  assert (Ha : all_hex (List.concat (map hex4 (List.concat (map char_units s)))) = true)
    by exact (forallb_concat_hex4 is_hex_char _ (fun u Hu => proj2 (hex4_ok_bmp u Hu)) Hu).
  split.
  - destruct s as [|c r]; [reflexivity|].
    rewrite cached_decode_ucs2_nonempty.
    + now rewrite Ha, Hb, D2.
    + pose proof (char_units_range c ltac:(now inversion Hc)) as Hcu.
      unfold char_units in *. cbn [map List.concat].
      destruct (c <? 65536); cbn [app map List.concat]; unfold hex4; discriminate.
  - unfold decode_ucs2_message. now rewrite Hb, D1.
Qed.

Lemma decode_after_lone_surrogate (u : Z) (s2 : pystr) :
  is_surrogate u = true -> Forall py_char s2 -> Forall (fun c => is_surrogate c = false) s2 ->
  utf16be_decode_ignore ([u / 256; u mod 256] ++ units_bytes (List.concat (map char_units s2)))
    = s2 /\
  utf16be_decode_strict ([u / 256; u mod 256] ++ units_bytes (List.concat (map char_units s2)))
    = None.
Proof.
  intros Hu Hc2 Hs2.
  pose proof (first_unit_not_low s2 Hc2 Hs2) as Hw.
  destruct (decode_text s2 [] Hc2 Hs2) as [F1 F2].
  cbn [utf16be_decode_ignore utf16be_decode_strict option_map] in F1, F2.
  rewrite !app_nil_r in F1, F2.
  cbn [app utf16be_decode_ignore utf16be_decode_strict]. rewrite div_mod_256, Hu. cbn [negb].
  destruct (is_high_surrogate u) eqn:Hhi; cbn [negb]; [|split; [exact F1|reflexivity]].
  destruct (List.concat (map char_units s2)) as [|w ws].
  - cbn [units_bytes map List.concat] in F1 |- *. split; [exact F1|reflexivity].
  - cbn [units_bytes map List.concat app] in F1 |- *.
    rewrite div_mod_256, Hw. split; [exact F1|reflexivity].
Qed.

(** A lone surrogate code unit [u] between two well-formed texts makes
    the strict decoder of [_cached_decode_ucs2] fail, so it returns its
    input, the hex string, unchanged; [decode_ucs2_message] drops the
    unit and returns the two texts joined. *)
Theorem ucs2_decoders_lone_surrogate (s1 s2 h1 h2 : pystr) (u : Z) :
  Forall py_char s1 -> Forall py_char s2 ->
  utf16be_hex s1 = Some h1 -> utf16be_hex s2 = Some h2 -> is_surrogate u = true ->
  _cached_decode_ucs2 (h1 ++ hex4 u ++ h2) = h1 ++ hex4 u ++ h2 /\
  decode_ucs2_message (h1 ++ hex4 u ++ h2) = s1 ++ s2.
Proof.
  intros Hc1 Hc2 Hh1 Hh2 Hu.
  destruct (utf16be_hex_units s1 h1 Hh1) as [Hs1 E1].
  destruct (utf16be_hex_units s2 h2 Hh2) as [Hs2 E2].
  assert (Hur : 0 <= u < 65536)
    by (unfold is_surrogate in Hu; apply andb_true_iff in Hu as [A B];
        apply Z.leb_le in A; apply Z.leb_le in B; lia).
  set (us := List.concat (map char_units s1) ++ u :: List.concat (map char_units s2)).
  assert (Hus : Forall (fun w => 0 <= w < 65536) us)
    by (apply Forall_app; split;
        [apply units_range, Hc1|constructor; [exact Hur|apply units_range, Hc2]]).
  assert (Eh : h1 ++ hex4 u ++ h2 = List.concat (map hex4 us))
    by (unfold us; rewrite E1, E2, map_app, concat_app; reflexivity).
  assert (Ha : all_hex (h1 ++ hex4 u ++ h2) = true)
    by (rewrite Eh;
        exact (forallb_concat_hex4 is_hex_char _ (fun w Hw => proj2 (hex4_ok_bmp w Hw)) Hus)).
  assert (Hb : bytes_fromhex (h1 ++ hex4 u ++ h2) =
               Some (units_bytes (List.concat (map char_units s1)) ++
                     [u / 256; u mod 256] ++ units_bytes (List.concat (map char_units s2)))).
  { rewrite Eh. unfold bytes_fromhex. rewrite (forallb_concat_hex4 _ _ hex4_ascii Hus).
    rewrite <- (app_nil_r (List.concat (map hex4 us))), fromhex_loop_units by exact Hus.
    cbn [fromhex_loop option_map]. rewrite app_nil_r. unfold us, units_bytes.
    rewrite map_app, concat_app. reflexivity. }
  destruct (decode_after_lone_surrogate u s2 Hu Hc2 Hs2) as [L1 L2].
  destruct (decode_text s1 ([u / 256; u mod 256] ++ units_bytes (List.concat (map char_units s2)))
              Hc1 Hs1) as [D1 D2].
  rewrite L1 in D1. rewrite L2 in D2. cbn [option_map] in D2.
  assert (Hne : h1 ++ hex4 u ++ h2 <> []) by (unfold hex4; destruct h1; discriminate).
  unfold decode_ucs2_message. rewrite cached_decode_ucs2_nonempty by exact Hne.
  rewrite Ha, Hb, D1, D2. split; reflexivity.
Qed.

Lemma ucs2_decoders_roundtrip_witness :
  Forall py_char [72; 128512] /\ utf16be_hex [72; 128512] = Some (str_of "0048d83dde00") /\
  _cached_decode_ucs2 (str_of "0048d83dde00") = [72; 128512] /\
  decode_ucs2_message (str_of "0048d83dde00") = [72; 128512].
Proof.
  assert (Hc : Forall py_char [72; 128512])
    by (repeat constructor; unfold py_char; lia).
  split; [exact Hc|]. split; [reflexivity|].
  exact (ucs2_decoders_roundtrip [72; 128512] (str_of "0048d83dde00") Hc eq_refl).
Defined.

Lemma ucs2_decoders_lone_surrogate_witness :
  Forall py_char [72] /\ Forall py_char [105] /\
  utf16be_hex [72] = Some (str_of "0048") /\ utf16be_hex [105] = Some (str_of "0069") /\
  is_surrogate 55357 = true /\
  _cached_decode_ucs2 (str_of "0048" ++ hex4 55357 ++ str_of "0069") =
    str_of "0048" ++ hex4 55357 ++ str_of "0069" /\
  decode_ucs2_message (str_of "0048" ++ hex4 55357 ++ str_of "0069") = [72] ++ [105].
Proof.
  assert (H1 : Forall py_char [72]) by (repeat constructor; unfold py_char; lia).
  assert (H2 : Forall py_char [105]) by (repeat constructor; unfold py_char; lia).
  split; [exact H1|]. split; [exact H2|]. split; [reflexivity|]. split; [reflexivity|].
  split; [reflexivity|].
  exact (ucs2_decoders_lone_surrogate [72] [105] (str_of "0048") (str_of "0069") 55357
           H1 H2 eq_refl eq_refl eq_refl).
Defined.

(** ** Phone numbers: [decode_phone_number] (modem.py) *)

(** The semi-octet form of a phone number in a PDU address field: the
    digits in swapped pairs, an odd count padded with [F]. *)
Definition semi_octet_encode (digits : pystr) : pystr :=
  swap_semi_octets (if Nat.even (List.length digits) then digits else digits ++ [70]).

Lemma swap_semi_octets_involutive (s : pystr) : swap_semi_octets (swap_semi_octets s) = s.
Proof.
  assert (H : forall n s, (List.length s <= n)%nat -> swap_semi_octets (swap_semi_octets s) = s).
  { induction n as [|n IH]; intros [|a [|b r]] Hl; cbn [List.length] in Hl; try reflexivity.
    - lia.
    - cbn [swap_semi_octets]. rewrite IH by lia. reflexivity. }
  exact (H _ s (le_n _)).
Qed.

Lemma rstrip_char_snoc (c : Z) (s : pystr) : rstrip_char c (s ++ [c]) = rstrip_char c s.
Proof.
  unfold rstrip_char. rewrite rev_app_distr. cbn [rev app lstrip_char].
  now rewrite Z.eqb_refl.
Qed.

Lemma rstrip_char_keep (c : Z) (s : pystr) :
  (forall x, last s 0 = x -> s <> [] -> x <> c) -> rstrip_char c s = s.
Proof.
  intro H. unfold rstrip_char.
  destruct (rev s) as [|x r] eqn:E.
  - cbn [lstrip_char]. apply (f_equal (@rev Z)) in E. now rewrite rev_involutive in E.
  - assert (Hs : s = rev r ++ [x]) by (rewrite <- (rev_involutive s), E; reflexivity).
    assert (Hx : x <> c).
    { apply (H x); [rewrite Hs; apply last_last|rewrite Hs; destruct (rev r); discriminate]. }
    cbn [lstrip_char]. apply Z.eqb_neq in Hx. rewrite Hx. now rewrite <- E, rev_involutive.
Qed.

Lemma last_in (s : pystr) : s <> [] -> In (last s 0) s.
Proof.
  induction s as [|a r IH]; [contradiction|]. intros _.
  destruct r as [|b r]; [now left|]. right. apply IH. discriminate.
Qed.

(** A phone number in semi-octet form is read back by
    [decode_phone_number] for every type of address but the
    alphanumeric one ([0xD0]): the [F] padding of an odd length is
    removed, and type [0x91] adds the [+] prefix. This holds for any
    number with no [F] or [f] in it. *)
Theorem decode_phone_number_roundtrip (digits : pystr) (type_of_address : Z) :
  Forall (fun c => c <> 70 /\ c <> 102) digits -> type_of_address <> 208 ->
  decode_phone_number (semi_octet_encode digits) type_of_address =
    if type_of_address =? 145 then 43 :: digits else digits.
Proof.
  intros Hd Ht. unfold decode_phone_number, semi_octet_encode.
  apply Z.eqb_neq in Ht. rewrite Ht. rewrite swap_semi_octets_involutive.
  assert (Hk : forall c, c = 70 \/ c = 102 -> rstrip_char c digits = digits).
  { intros c Hc. apply rstrip_char_keep. intros x Hx Hne.
    pose proof (last_in digits Hne) as Hin. rewrite Hx in Hin.
    rewrite Forall_forall in Hd. destruct (Hd x Hin). lia. }
  destruct (Nat.even (List.length digits)).
  - rewrite !Hk by auto. reflexivity.
  - rewrite rstrip_char_snoc, !Hk by auto. reflexivity.
Qed.

Lemma decode_phone_number_roundtrip_witness :
  Forall (fun c => c <> 70 /\ c <> 102) (str_of "21366123456") /\ 145 <> 208 /\
  decode_phone_number (semi_octet_encode (str_of "21366123456")) 145 =
    if 145 =? 145 then 43 :: str_of "21366123456" else str_of "21366123456".
Proof.
  assert (H : Forall (fun c => c <> 70 /\ c <> 102) (str_of "21366123456"))
    by (vm_compute; repeat (apply Forall_cons; [split; discriminate|]); apply Forall_nil).
  split; [exact H|]. split; [lia|].
  exact (decode_phone_number_roundtrip (str_of "21366123456") 145 H ltac:(lia)).
Defined.

(** ** Deleting with retries: [delete_sms_with_retry] (modem.py) *)

Lemma delete_sms_with_retry_n_spec (n : nat) (index : Z) (s : st) :
  exists k,
    (k <= n)%nat /\ (n <> 0 -> 1 <= k)%nat /\
    delete_sms_with_retry_n n index s =
      (inr (existsb (fun b => b) (firstn n (st_delete_replies s))),
       {| st_db := st_db s;
          st_trace := st_trace s ++ repeat (EvWrite (cmgd index ++ [13])) k;
          st_delete_replies := skipn k (st_delete_replies s) |}) /\
    (if existsb (fun b => b) (firstn n (st_delete_replies s))
     then firstn k (st_delete_replies s) = repeat false (k - 1) ++ [true]
     else k = n).
Proof.
  revert s. induction n as [|n IH]; intro s.
  - exists O. cbn. destruct s. rewrite app_nil_r. repeat split; lia.
  - cbn [delete_sms_with_retry_n]. unfold delete_sms, try_except, log, next_delete_reply, bind.
    cbn [st_delete_replies st_db st_trace].
    destruct (st_delete_replies s) as [|b r] eqn:Er; cbn [st_delete_replies st_db st_trace].
    + destruct (IH {| st_db := st_db s; st_trace := st_trace s ++ [EvWrite (cmgd index ++ [13])];
                     st_delete_replies := [] |}) as (k & Hk & Hk1 & Heq & Hc).
      cbn [st_delete_replies st_db st_trace] in Heq, Hc. rewrite firstn_nil in Hc. cbn in Hc.
      subst k. exists (S n). rewrite Heq, !firstn_nil, !skipn_nil. cbn [existsb].
      rewrite <- app_assoc. split; [lia|]. split; [lia|]. split; reflexivity.
    + destruct b.
      * exists 1%nat. cbn. repeat split; lia.
      * destruct (IH {| st_db := st_db s; st_trace := st_trace s ++ [EvWrite (cmgd index ++ [13])];
                       st_delete_replies := r |}) as (k & Hk & Hk1 & Heq & Hc).
        cbn [st_delete_replies st_db st_trace] in Heq, Hc.
        exists (S k). rewrite Heq. cbn [firstn existsb orb skipn].
        rewrite <- app_assoc. split; [lia|]. split; [lia|]. split; [reflexivity|].
        destruct (existsb (fun b => b) (firstn n r)) eqn:Ee; [|lia].
        assert (k <> 0%nat) by (intro; subst; destruct n; discriminate).
        cbn [firstn]. rewrite Hc. destruct k as [|k]; [lia|].
        cbn. now rewrite Nat.sub_0_r.
Qed.

(** [delete_sms_with_retry] writes [AT+CMGD=<index>] one to three times:
    it stops at the first reply with [OK] and returns [True], or returns
    [False] after three replies without one. It consumes one reply per
    attempt and touches nothing else (the database in particular). *)
Theorem delete_sms_with_retry_attempts (index : Z) (s : st) :
  exists k,
    (1 <= k <= 3)%nat /\
    delete_sms_with_retry index s =
      (inr (existsb (fun b => b) (firstn 3 (st_delete_replies s))),
       {| st_db := st_db s;
          st_trace := st_trace s ++ repeat (EvWrite (cmgd index ++ [13])) k;
          st_delete_replies := skipn k (st_delete_replies s) |}) /\
    (if existsb (fun b => b) (firstn 3 (st_delete_replies s))
     then firstn k (st_delete_replies s) = repeat false (k - 1) ++ [true]
     else k = 3%nat).
Proof.
  destruct (delete_sms_with_retry_n_spec 3 index s) as (k & Hk & Hk1 & Heq & Hc).
  exists k. split; [split; [apply Hk1; discriminate|exact Hk]|]. split; assumption.
Qed.

(** ** Scanning the SIM: [scan_all_messages] (modem.py) *)

Lemma send_at_command_written (ser : serial) (command : pystr) (wait : Z) :
  written (snd (send_at_command ser command wait)) =
    written ser ++ (if port_open ser then [command ++ [13]] else []) /\
  port_open (snd (send_at_command ser command wait)) = port_open ser.
Proof.
  unfold send_at_command. destruct (port_open ser) eqn:E; cbn [negb snd written port_open].
  - split; reflexivity.
  - rewrite app_nil_r. split; [reflexivity|exact E].
Qed.


(** ** Initialisation: [init_modem] (modem.py) *)

Lemma send_spec (cmd : pystr) (s : modem) :
  send cmd s = (inr (nth 0 (replies s) []),
                {| replies := skipn 1 (replies s); sent := sent s ++ [cmd];
                   SMS_MODE := SMS_MODE s |}).
Proof. unfold send. destruct (replies s); reflexivity. Qed.

Lemma send_all_spec (cmds : list pystr) (s : modem) :
  send_all cmds s = (inr tt, {| replies := skipn (List.length cmds) (replies s);
                                sent := sent s ++ cmds; SMS_MODE := SMS_MODE s |}).
Proof.
  revert s. induction cmds as [|c r IH]; intro s.
  - destruct s. cbn. now rewrite app_nil_r.
  - cbn [send_all]. unfold ibind. rewrite send_spec, IH. cbn [replies sent SMS_MODE].
    rewrite skipn_skipn, <- app_assoc, Nat.add_1_r. reflexivity.
Qed.

Lemma nth_skipn_add (n m : nat) (l : list pystr) (d : pystr) :
  nth n (skipn m l) d = nth (m + n) l d.
Proof.
  revert l. induction m as [|m IH]; intro l; [reflexivity|].
  destruct l as [|x l]; cbn [skipn]; [now destruct n|]. apply IH.
Qed.

Ltac init_run :=
  repeat (first [rewrite send_spec | rewrite send_all_spec];
          cbn [replies sent SMS_MODE negb andb]);
  rewrite ?skipn_skipn, ?nth_skipn_add; cbn [Nat.add].

(** Once the modem has answered [AT] with [OK], [init_modem] runs to
    one of two ends, fixed by the replies: it sends [ATZ], [ATE1],
    [AT], the probes of the [AUTO] mode ([AT+CMGF=1], and [AT+CMGF?]
    when that was acknowledged), the essential commands of the chosen
    mode and [AT+CMGF?]. [AUTO] chooses TEXT only when [AT+CMGF=1] got
    [OK] and the answer to [AT+CMGF?] contains [1]; [TEXT] forces TEXT and
    any other preference gives PDU. If the last answer holds the
    expected value, [AT+CPMS?] follows, [SMS_MODE] is set and the result
    is [True]; otherwise [init_modem] raises with [SMS_MODE] unchanged. *)
Theorem init_modem_outcome (preferred_mode : pystr) (s : modem) :
  has_OK (nth 2 (replies s) []) = true ->
  let auto := PyStr.eqb preferred_mode (str_of "AUTO") in
  let probes :=
    if auto then
      if has_OK (nth 3 (replies s) []) then [str_of "AT+CMGF=1"; str_of "AT+CMGF?"]
      else [str_of "AT+CMGF=1"]
    else [] in
  let m :=
    if auto then
      if has_OK (nth 3 (replies s) []) && contains (str_of "1") (nth 4 (replies s) [])
      then TEXT else PDU
    else if PyStr.eqb preferred_mode (str_of "TEXT") then TEXT else PDU in
  let cmds := [str_of "ATZ"; str_of "ATE1"; str_of "AT"] ++ probes ++
              essential_commands m ++ [str_of "AT+CMGF?"] in
  init_modem preferred_mode s =
    if contains (expected_value m) (nth (List.length cmds - 1) (replies s) []) then
      (inr true, {| replies := skipn (S (List.length cmds)) (replies s);
                    sent := sent s ++ cmds ++ [str_of "AT+CPMS?"]; SMS_MODE := m |})
    else
      (inl (ModeNotSet m), {| replies := skipn (List.length cmds) (replies s);
                              sent := sent s ++ cmds; SMS_MODE := SMS_MODE s |}).
Proof.
  intro H. cbv zeta.
  unfold init_modem, init_configure, init_verify, set_SMS_MODE, iret, ifail, ibind.
  init_run. rewrite H. cbn [negb].
  destruct (PyStr.eqb preferred_mode (str_of "AUTO")).
  - init_run. destruct (has_OK (nth 3 (replies s) [])).
    + init_run. destruct (contains (str_of "1") (nth 4 (replies s) []));
        init_run; cbn [essential_commands List.length app Nat.sub];
        destruct (contains _ _); cbn [negb]; init_run; rewrite <- !app_assoc; reflexivity.
    + init_run; cbn [essential_commands List.length app Nat.sub];
        destruct (contains _ _); cbn [negb]; init_run; rewrite <- !app_assoc; reflexivity.
  - destruct (PyStr.eqb preferred_mode (str_of "TEXT"));
      init_run; cbn [essential_commands List.length app Nat.sub];
      destruct (contains _ _); cbn [negb]; init_run; rewrite <- !app_assoc; reflexivity.
Qed.

(** When the answer to [AT] (the third reply) has no [OK], [init_modem]
    fails with [ModemNotResponding] right after [ATZ], [ATE1] and [AT]:
    no mode is configured and [SMS_MODE] is left as it was. *)
Theorem init_modem_not_responding (preferred_mode : pystr) (s : modem) :
  has_OK (nth 2 (replies s) []) = false ->
  init_modem preferred_mode s =
    (inl ModemNotResponding,
     {| replies := skipn 3 (replies s);
        sent := sent s ++ [str_of "ATZ"; str_of "ATE1"; str_of "AT"];
        SMS_MODE := SMS_MODE s |}).
Proof.
  intro H.
  unfold init_modem, init_configure, init_verify, set_SMS_MODE, iret, ifail, ibind.
  init_run. rewrite H. cbn [negb]. rewrite <- !app_assoc. reflexivity.
Qed.

Definition init_script : modem :=
  {| replies := [str_of "OK"; str_of "ATE1 OK"; str_of "OK"; str_of "OK";
                 str_of "+CMGF: 1 OK"; str_of "OK"; str_of "OK"; str_of "OK"; str_of "OK";
                 str_of "OK"; str_of "OK"; str_of "OK"; str_of "+CMGF: 1 OK";
                 str_of "+CPMS: 0,20 OK"];
     sent := []; SMS_MODE := PDU |}.

Lemma init_modem_outcome_witness :
  has_OK (nth 2 (replies init_script) []) = true /\
  init_modem (str_of "AUTO") init_script =
    (inr true, {| replies := [];
                  sent := [str_of "ATZ"; str_of "ATE1"; str_of "AT"; str_of "AT+CMGF=1";
                           str_of "AT+CMGF?"] ++ essential_commands TEXT ++
                          [str_of "AT+CMGF?"; str_of "AT+CPMS?"];
                  SMS_MODE := TEXT |}).
Proof.
  split; [reflexivity|].
  pose proof (init_modem_outcome (str_of "AUTO") init_script eq_refl) as E.
  cbv zeta in E. rewrite E. vm_compute. reflexivity.
Defined.

Lemma init_modem_not_responding_witness :
  has_OK (nth 2 (replies {| replies := [str_of "OK"; str_of "OK"]; sent := [];
                            SMS_MODE := TEXT |}) []) = false /\
  init_modem (str_of "TEXT") {| replies := [str_of "OK"; str_of "OK"]; sent := [];
                                SMS_MODE := TEXT |} =
    (inl ModemNotResponding,
     {| replies := []; sent := [str_of "ATZ"; str_of "ATE1"; str_of "AT"]; SMS_MODE := TEXT |}).
Proof.
  split; [reflexivity|].
  exact (init_modem_not_responding (str_of "TEXT")
           {| replies := [str_of "OK"; str_of "OK"]; sent := []; SMS_MODE := TEXT |} eq_refl).
Defined.

(** ** Alphanumeric senders: [decode_7bit_gsm] (modem.py) *)

Definition bin_alphabet : list Z := [48; 49; 98].

Fixpoint all_words (n : nat) : list pystr :=
  match n with
  | O => [[]]
  | S k => flat_map (fun x => map (cons x) (all_words k)) bin_alphabet
  end.

Definition septet_value_ok (chunk : pystr) : bool :=
  match py_int2 chunk with Some v => (0 <=? v) && (v <? 128) | None => true end.

Lemma septet_values_all : forallb septet_value_ok (all_words 7) = true.
Proof. vm_compute. reflexivity. Qed.

Lemma in_all_words (w : pystr) :
  Forall (fun x => In x bin_alphabet) w -> In w (all_words (List.length w)).
Proof.
  induction 1 as [|x w Hx _ IH]; [now left|].
  cbn [List.length all_words]. apply in_flat_map. exists x. split; [exact Hx|].
  apply in_map. exact IH.
Qed.

Lemma septet_value (chunk : pystr) (v : Z) :
  List.length chunk = 7%nat -> Forall (fun x => In x bin_alphabet) chunk ->
  py_int2 chunk = Some v -> 0 <= v < 128.
Proof.
  intros Hl Ha Hv.
  assert (H : septet_value_ok chunk = true).
  { pose proof septet_values_all as Hall. rewrite forallb_forall in Hall.
    apply Hall. rewrite <- Hl. now apply in_all_words. }
  unfold septet_value_ok in H. rewrite Hv in H.
  apply andb_true_iff in H as [A B]. apply Z.leb_le in A. apply Z.ltb_lt in B. lia.
Qed.

Lemma bin_fuel_chars (fuel : nat) (n : Z) :
  Forall (fun x => In x bin_alphabet) (bin_fuel fuel n).
Proof.
  revert n. induction fuel as [|f IH]; intro n; [constructor|].
  cbn [bin_fuel]. apply Forall_app. split.
  - destruct (n <? 2); [constructor|apply IH].
  - constructor; [|constructor].
    pose proof (Z.mod_pos_bound n 2 ltac:(lia)).
    assert (n mod 2 = 0 \/ n mod 2 = 1) as [E|E] by lia; rewrite E; cbn; auto.
Qed.

Lemma bin_tail_chars (v : Z) : Forall (fun x => In x bin_alphabet) (bin_tail v).
Proof.
  unfold bin_tail, bin_digits. destruct (v <? 0).
  - constructor; [cbn; auto|apply bin_fuel_chars].
  - apply bin_fuel_chars.
Qed.

Lemma zfill_chars (width : Z) (s : pystr) :
  Forall (fun x => In x bin_alphabet) s -> Forall (fun x => In x bin_alphabet) (zfill width s).
Proof.
  intro Hs. unfold zfill.
  assert (Hz : forall k, Forall (fun x => In x bin_alphabet) (repeat 48 k))
    by (intro k; apply Forall_forall; intros x Hx; apply repeat_spec in Hx; subst; cbn; auto).
  destruct (width - Z.of_nat (List.length s) <=? 0); [exact Hs|].
  destruct s as [|c r]; [apply Hz|].
  inversion Hs as [|? ? Hc Hr]; subst.
  destruct ((c =? 43) || (c =? 45)).
  - constructor; [exact Hc|]. apply Forall_app. split; [apply Hz|exact Hr].
  - apply Forall_app. split; [apply Hz|exact Hs].
Qed.

Lemma septets_chunks (fuel : nat) (binary : pystr) :
  Forall (fun x => In x bin_alphabet) binary ->
  Forall (fun ch => List.length ch = 7%nat /\ Forall (fun x => In x bin_alphabet) ch)
         (septets fuel binary).
Proof.
  revert binary. induction fuel as [|f IH]; intros binary Hb; [constructor|].
  cbn [septets]. destruct (Nat.leb 7 (List.length binary)) eqn:E; [|constructor].
  apply Nat.leb_le in E.
  rewrite <- (firstn_skipn 7 binary) in Hb. apply Forall_app in Hb as [H1 H2].
  constructor; [split; [rewrite length_firstn; lia|exact H1]|].
  apply IH, H2.
Qed.

Lemma septet_chars_range (chunks : list pystr) (cs : pystr) :
  Forall (fun ch => List.length ch = 7%nat /\ Forall (fun x => In x bin_alphabet) ch) chunks ->
  septet_chars chunks = Some cs -> Forall (fun c => 0 < c < 128) cs.
Proof.
  intro H. revert cs. induction H as [|ch r [Hl Ha] _ IH]; intros cs Hc.
  - injection Hc as <-. constructor.
  - cbn [septet_chars] in Hc.
    destruct (py_int2 ch) as [code|] eqn:Ev; [|discriminate].
    destruct (septet_chars r) as [rest|]; [|discriminate].
    injection Hc as <-. pose proof (septet_value ch code Hl Ha Ev).
    destruct (0 <? code) eqn:Ep.
    + apply Z.ltb_lt in Ep. constructor; [lia|now apply IH].
    + now apply IH.
Qed.

(** [decode_7bit_gsm] either gives up and returns its input unchanged,
    or returns a text of ASCII characters between [0x01] and [0x7F]:
    every 7-bit chunk it reads is below [128], and the chunks read as
    [0] are dropped. *)
Theorem decode_7bit_gsm_ascii (hex_data : pystr) :
  decode_7bit_gsm hex_data = hex_data \/
  Forall (fun c => 0 < c < 128) (decode_7bit_gsm hex_data).
Proof.
  unfold decode_7bit_gsm. destruct (py_int 16 hex_data) as [v|]; [|now left].
  set (binary := zfill _ (bin_tail v)).
  destruct (septet_chars (septets (List.length binary) binary)) as [cs|] eqn:E; [|now left].
  right. apply (septet_chars_range (septets (List.length binary) binary)).
  - apply septets_chunks, zfill_chars, bin_tail_chars.
  - exact E.
Qed.
